(** * hyperliquidilink: the EIP-712 link scripts, embedded and verified

    The repository is four Node scripts written against two libraries,
    ethers (keys, EIP-712 hashing, secp256k1) and axios (HTTP):

    - [Index]       : src/index.ts, the two-role link coordinator;
    - [LinkStaking] : src/unnamed/part_001, the finalizer-only script;
    - [SignMessage] : src/scripts/sign_message_and_call_api.ts, first script;
    - [SendTx]      : the second script of that file (EIP-1559 transfer).

    The scripts are embedded as programs of a state-and-exception monad
    whose state is the trace of observable effects (console lines, key
    loads, signing and recovery calls, RPC queries, HTTP posts) and the
    number of clock readings made so far.  What the scripts read from
    their surroundings (process.env, the clock, the answers of the
    network) is a [World]; what they call in ethers is an [Ethers]
    interface. *)

From Stdlib Require Import ZArith List String Ascii Bool Lia.
From stdpp Require Import base option gmap strings pretty.
Import ListNotations.

Local Set Warnings "-register-all".
Local Open Scope string_scope.
Local Open Scope Z_scope.
Local Open Scope list_scope.

(** ** JavaScript built-ins used by the scripts *)

Module JS.

(** A JavaScript number, as far as the scripts need one: an integral
    double, NaN or an infinity.  Strings are sequences of code units
    below 256. *)
Inductive number :=
| Num (z : Z)
| NaN
| PosInf
| NegInf.

Inductive Value :=
| VUndefined
| VNull
| VBool (b : bool)
| VNumber (n : number)
| VBigInt (z : Z)
| VString (s : string)
| VObject (fields : list (string * Value))
| VArray (items : list Value).

(** Property read [o.k]: the first binding of [k], [undefined] otherwise. *)
Fixpoint lookup_field (k : string) (fields : list (string * Value)) : Value :=
  match fields with
  | [] => VUndefined
  | (k', x) :: rest => if String.eqb k k' then x else lookup_field k rest
  end.

Definition get (k : string) (o : Value) : Value :=
  match o with
  | VObject fields => lookup_field k fields
  | _ => VUndefined
  end.

(** *** Characters *)

Definition code (c : ascii) : Z := Z.of_nat (nat_of_ascii c).

Definition chr (z : Z) : ascii := ascii_of_nat (Z.to_nat z).

(** WhiteSpace and LineTerminator code units below 256: TAB, LF, VT, FF,
    CR, SP and NBSP. *)
Definition isWhiteSpace (c : ascii) : bool :=
  let n := code c in
  ((9 <=? n) && (n <=? 13)) || (n =? 32) || (n =? 160).

(** Upper-case letters below 256: A-Z and the Latin-1 capitals except the
    multiplication sign. *)
Definition isUpper (c : ascii) : bool :=
  let n := code c in
  ((65 <=? n) && (n <=? 90))
  || ((192 <=? n) && (n <=? 222) && negb (n =? 215)).

Definition lowerChar (c : ascii) : ascii :=
  if isUpper c then chr (code c + 32) else c.

(** [String.prototype.toLowerCase]. *)
Fixpoint toLowerCase (s : string) : string :=
  match s with
  | EmptyString => EmptyString
  | String c rest => String (lowerChar c) (toLowerCase rest)
  end.

Fixpoint trimStart (s : string) : string :=
  match s with
  | EmptyString => EmptyString
  | String c rest => if isWhiteSpace c then trimStart rest else s
  end.

Fixpoint rev_string (s acc : string) : string :=
  match s with
  | EmptyString => acc
  | String c rest => rev_string rest (String c acc)
  end.

Definition trimEnd (s : string) : string :=
  rev_string (trimStart (rev_string s EmptyString)) EmptyString.

(** [String.prototype.trim]. *)
Definition trim (s : string) : string := trimEnd (trimStart s).

(** ToBoolean on a string and on a bigint. *)
Definition truthy_string (s : string) : bool :=
  match s with EmptyString => false | _ => true end.

Definition truthy_bigint (z : Z) : bool := negb (z =? 0).

(** *** Numerals *)

(** Value of a digit in the given radix. *)
Definition digit_value (radix : Z) (c : ascii) : option Z :=
  let n := code c in
  let d :=
    if (48 <=? n) && (n <=? 57) then Some (n - 48)
    else if (97 <=? n) && (n <=? 122) then Some (n - 87)
    else if (65 <=? n) && (n <=? 90) then Some (n - 55)
    else None in
  match d with
  | Some x => if x <? radix then Some x else None
  | None => None
  end.

(** Longest prefix of digits: its value and how many digits it has. *)
Fixpoint parse_digits (radix : Z) (s : string) (acc : Z) (count : nat) : Z * nat * string :=
  match s with
  | EmptyString => (acc, count, s)
  | String c rest =>
      match digit_value radix c with
      | Some d => parse_digits radix rest (acc * radix + d) (S count)
      | None => (acc, count, s)
      end
  end.

(** Rounding of an integer to the nearest double, ties to even: what
    [Number(bigint)] returns. *)
Definition Number_of_bigint (n : Z) : number :=
  let m := Z.abs n in
  if m <? 2 ^ 53 then Num n
  else
    let e := Z.log2 m - 52 in
    let q := Z.shiftr m e in
    let rest := Z.land m (Z.ones e) in
    let half := Z.shiftl 1 (e - 1) in
    let q' := if (half <? rest) || ((rest =? half) && Z.odd q) then q + 1 else q in
    let x := Z.shiftl q' e in
    if 2 ^ 1024 <=? x then (if n <? 0 then NegInf else PosInf)
    else Num (Z.sgn n * x).

(** [parseInt(s)] with no radix argument: leading white space, a sign,
    an optional 0x prefix selecting radix 16, then the longest run of
    digits; NaN when there is none. *)
Definition parseInt (s : string) : number :=
  let s1 := trimStart s in
  let '(neg, s2) :=
    match s1 with
    | String "-" rest => (true, rest)
    | String "+" rest => (false, rest)
    | _ => (false, s1)
    end in
  let '(radix, s3) :=
    match s2 with
    | String "0" (String "x" rest) => (16, rest)
    | String "0" (String "X" rest) => (16, rest)
    | _ => (10, s2)
    end in
  match parse_digits radix s3 0 0 with
  | (_, O, _) => NaN
  | (m, _, _) => Number_of_bigint (if neg then - m else m)
  end.

(** [BigInt(s)] on a string (StringToBigInt): trimmed; empty is 0n; a
    0x, 0o or 0b prefix without sign, or an optionally signed decimal
    numeral; [None] stands for the SyntaxError. *)
Definition all_digits (radix : Z) (s : string) : option Z :=
  match parse_digits radix s 0 0 with
  | (_, O, _) => None
  | (m, _, EmptyString) => Some m
  | _ => None
  end.

Definition BigInt_of_string (s : string) : option Z :=
  match trim s with
  | EmptyString => Some 0
  | String "0" (String "x" rest) | String "0" (String "X" rest) => all_digits 16 rest
  | String "0" (String "o" rest) | String "0" (String "O" rest) => all_digits 8 rest
  | String "0" (String "b" rest) | String "0" (String "B" rest) => all_digits 2 rest
  | String "-" rest => option_map Z.opp (all_digits 10 rest)
  | String "+" rest => all_digits 10 rest
  | t => all_digits 10 t
  end.

(** [`${b}`] for a boolean and for a bigint. *)
Definition string_of_bool (b : bool) : string := if b then "true" else "false".

Definition string_of_bigint (z : Z) : string := pretty z.

End JS.

(** ** Effects: results, events, the world and the library *)

(** An AxiosResponse, as far as the scripts look at it. *)
Record Response := { status : Z; data : JS.Value }.

(** How an HTTP exchange can end without a 2xx answer, with the message
    axios gives to the error: no answer within the time limit, an answer
    with another status, no answer at all. *)
Inductive AxiosFailure :=
| TimedOut (message : string)
| BadStatus (message : string) (r : Response)
| NetworkError (message : string).

(** What a script can throw: an [Error] (its own, or one of ethers), the
    SyntaxError of [BigInt] and [JSON.parse], a TypeError, or the
    rejection of an axios call. *)
Inductive Exn :=
| Error (message : string)
| SyntaxError (message : string)
| TypeError (message : string)
| AxiosError (failure : AxiosFailure).

Inductive Res (A : Type) :=
| Ok (a : A)
| Throw (e : Exn).

Arguments Ok {A} a.
Arguments Throw {A} e.

Record HttpRequest := {
  url : string;
  body : JS.Value;
  headers : list (string * string);
  timeout : Z
}.

Record Receipt := { receipt_status : Z; blockNumber : Z }.

Inductive RpcCall :=
| GetBlockNumber
| EstimateGas (from to : string) (value : Z)
| SendTransaction (signer : string) (tx : JS.Value)
| WaitForReceipt (hash : string).

(** Reason printed by the top-level handler of a script. *)
Inductive Reported :=
| RData (d : JS.Value)
| RMessage (m : string)
| RException (e : Exn).

Inductive Event :=
| ConsoleLog (args : list JS.Value)
| ConsoleError (label : string) (what : Reported)
| NewWallet (privateKey : string)
| SignTypedData (signer : string) (domain types value : JS.Value)
| SignMessage (signer : string) (message : string)
| VerifyTypedData (domain types value : JS.Value) (signature : string)
| Rpc (endpoint : string) (call : RpcCall)
| HttpPost (request : HttpRequest)
| Exit (code : Z).

(** The surroundings of one run: the environment variables, the clock
    (its successive readings) and the answers of the network. *)
Record World := {
  env : gmap string string;
  clock : nat -> Z;
  http : HttpRequest -> AxiosFailure + Response;
  rpc_getBlockNumber : string -> Res Z;
  rpc_estimateGas : string -> string -> string -> Z -> Res Z;
  rpc_sendTransaction : string -> string -> JS.Value -> Res string;
  rpc_wait : string -> string -> Res (option Receipt)
}.

Record Wallet := { privateKey : string; address : string }.

Record Signature := { sig_r : string; sig_s : string; sig_v : JS.number }.

(** The functions of ethers and the two built-ins (ISO dates, JSON) the
    scripts call and this repository does not implement.  A function
    that can throw returns a [Res]. *)
Class Ethers := {
  computeAddress : string -> Res string;
  TypedDataEncoder_hash : JS.Value -> JS.Value -> JS.Value -> Res string;
  hashMessage : string -> string;
  SigningKey_sign : string -> string -> string;
  Signature_from : string -> Res Signature;
  recoverAddress : string -> string -> Res string;
  parseEther : string -> Res Z;
  parseUnits : string -> string -> Res Z;
  Date_toISOString : Z -> string;
  JSON_parse : string -> Res JS.Value
}.

Record St := { ticks : nat; trace : list Event }.

Definition St0 : St := {| ticks := 0; trace := [] |}.

(** The monad of the scripts: state passing with exceptions; a throw keeps
    the state reached so far. *)
Definition M (A : Type) : Type := St -> Res A * St.

#[global] Instance M_ret : MRet M := fun A a st => (Ok a, st).

#[global] Instance M_bind : MBind M := fun A B f m st =>
  match m st with
  | (Ok a, st') => f a st'
  | (Throw e, st') => (Throw e, st')
  end.

Definition throw {A} (e : Exn) : M A := fun st => (Throw e, st).

Definition lift {A} (r : Res A) : M A := fun st => (r, st).

Definition emit (e : Event) : M unit := fun st =>
  (Ok tt, {| ticks := ticks st; trace := trace st ++ [e] |}).

(** [try { m } catch (e) { h e }]. *)
Definition try_catch {A} (m : M A) (h : Exn -> M A) : M A := fun st =>
  match m st with
  | (Ok a, st') => (Ok a, st')
  | (Throw e, st') => h e st'
  end.

Definition console_log (args : list JS.Value) : M unit := emit (ConsoleLog args).

Definition message_of (e : Exn) : string :=
  match e with
  | Error m | SyntaxError m | TypeError m => m
  | AxiosError (TimedOut m) | AxiosError (BadStatus m _) | AxiosError (NetworkError m) => m
  end.

(** [String(e)] for an exception whose message is empty: its class name. *)
Definition class_of (e : Exn) : string :=
  match e with
  | Error _ => "Error"
  | SyntaxError _ => "SyntaxError"
  | TypeError _ => "TypeError"
  | AxiosError _ => "AxiosError"
  end.

Definition response_of (e : Exn) : option Response :=
  match e with
  | AxiosError (BadStatus _ r) => Some r
  | _ => None
  end.

(** ToBoolean. *)
Definition truthy (x : JS.Value) : bool :=
  match x with
  | JS.VUndefined | JS.VNull => false
  | JS.VBool b => b
  | JS.VNumber (JS.Num z) => negb (z =? 0)
  | JS.VNumber JS.NaN => false
  | JS.VNumber _ => true
  | JS.VBigInt z => negb (z =? 0)
  | JS.VString s => JS.truthy_string s
  | JS.VObject _ | JS.VArray _ => true
  end.

Section Runtime.
Context {lib : Ethers} (w : World).

(** [Date.now()] and [new Date()]: the next reading of the clock. *)
Definition Date_now : M Z := fun st =>
  (Ok (clock w (ticks st)), {| ticks := S (ticks st); trace := trace st |}).

(** [process.env[name]]. *)
Definition getenv (name : string) : option string := env w !! name.

(** [BigInt(s)] on a string. *)
Definition BigInt (s : string) : M Z :=
  match JS.BigInt_of_string s with
  | Some z => mret z
  | None => throw (SyntaxError ("Cannot convert " +:+ s +:+ " to a BigInt"))
  end.

(** [new ethers.Wallet(privateKey)]: the key is loaded and its address
    derived. *)
Definition Wallet_new (key : string) : M Wallet :=
  emit (NewWallet key);;
  a ← lift (computeAddress key);
  mret {| privateKey := key; address := a |}.

(** Modelled from the spec: [wallet.signTypedData] of ethers, absent from
    the repository, computes the EIP-712 digest of (domain, types, value)
    and signs it with the wallet's key (4.2, 4.3). *)
Definition signTypedData (wallet : Wallet) (domain types value : JS.Value) : M string :=
  emit (SignTypedData (address wallet) domain types value);;
  digest ← lift (TypedDataEncoder_hash domain types value);
  mret (SigningKey_sign (privateKey wallet) digest).

(** Modelled from the spec: [ethers.verifyTypedData], absent from the
    repository, recomputes the digest and recovers the address of the
    signer from it and the signature (4.4). *)
Definition verifyTypedData (domain types value : JS.Value) (signature : string) : M string :=
  emit (VerifyTypedData domain types value signature);;
  digest ← lift (TypedDataEncoder_hash domain types value);
  lift (recoverAddress digest signature).

(** Modelled from the spec: [wallet.signMessage] of ethers signs the
    digest of the prefixed message (4.3). *)
Definition signMessage (wallet : Wallet) (message : string) : M string :=
  emit (SignMessage (address wallet) message);;
  mret (SigningKey_sign (privateKey wallet) (hashMessage message)).

(** Modelled from the spec: [axios.post(url, payload, { headers, timeout })]
    of axios, absent from the repository, sends one request and is awaited
    to completion; the answer is passed on as it is, and a failure (the
    time limit among them) rejects with an error (5, 6). *)
Definition axios_post (u : string) (payload : JS.Value)
    (hs : list (string * string)) (t : Z) : M Response :=
  let req := {| url := u; body := payload; headers := hs; timeout := t |} in
  emit (HttpPost req);;
  match http w req with
  | inr resp => mret resp
  | inl failure => throw (AxiosError failure)
  end.

(** [provider.getBlockNumber()]. *)
Definition getBlockNumber (endpoint : string) : M Z :=
  emit (Rpc endpoint GetBlockNumber);;
  lift (rpc_getBlockNumber w endpoint).

(** [provider.estimateGas({ from, to, value })]. *)
Definition estimateGas (endpoint from to : string) (value : Z) : M Z :=
  emit (Rpc endpoint (EstimateGas from to value));;
  lift (rpc_estimateGas w endpoint from to value).

(** [wallet.sendTransaction(tx)]: signed by the wallet and broadcast; the
    transaction hash comes back. *)
Definition sendTransaction (endpoint : string) (wallet : Wallet) (tx : JS.Value) : M string :=
  emit (Rpc endpoint (SendTransaction (address wallet) tx));;
  lift (rpc_sendTransaction w endpoint (privateKey wallet) tx).

(** [tx.wait()]. *)
Definition wait (endpoint hash : string) : M (option Receipt) :=
  emit (Rpc endpoint (WaitForReceipt hash));;
  lift (rpc_wait w endpoint hash).

(** [e?.response?.data || e?.message || e]. *)
Definition report (e : Exn) : Reported :=
  match response_of e with
  | Some resp =>
      if truthy (data resp) then RData (data resp)
      else if JS.truthy_string (message_of e) then RMessage (message_of e)
      else RException e
  | None =>
      if JS.truthy_string (message_of e) then RMessage (message_of e)
      else RException e
  end.

(** [main().catch(e => { console.error('Error:', ...); process.exit(1) })]:
    the whole run of a script, from the empty trace. *)
Definition run (main : M unit) (reason : Exn -> Reported) : Res unit * St :=
  match main St0 with
  | (Ok tt, st) => (Ok tt, st)
  | (Throw e, st) =>
      (Throw e,
       {| ticks := ticks st;
          trace := trace st ++ [ConsoleError "Error:" (reason e); Exit 1] |})
  end.

End Runtime.

(** ** src/index.ts *)

Module Index.

(** [interface LinkAction]. *)
Record LinkAction := {
  hyperliquidChain : string;
  isFinalize : bool;
  nonce : Z;
  signatureChainId : string;
  type : string;
  user : string
}.

Definition dquote : string := String "034"%char EmptyString.

Definition domain_of (chainId : JS.number) : JS.Value :=
  JS.VObject
    [("name", JS.VString "HyperliquidSignTransaction");
     ("version", JS.VString "1");
     ("chainId", JS.VNumber chainId);
     ("verifyingContract", JS.VString "0x0000000000000000000000000000000000000000")].

Definition field (name ty : string) : JS.Value :=
  JS.VObject [("name", JS.VString name); ("type", JS.VString ty)].

Definition types : JS.Value :=
  JS.VObject
    [("HyperliquidTransaction:LinkStakingUser",
      JS.VArray
        [field "hyperliquidChain" "string";
         field "user" "address";
         field "isFinalize" "bool";
         field "nonce" "uint64"])].

Definition value_of (action : LinkAction) : JS.Value :=
  JS.VObject
    [("hyperliquidChain", JS.VString (hyperliquidChain action));
     ("user", JS.VString (JS.toLowerCase (user action)));
     ("isFinalize", JS.VBool (isFinalize action));
     ("nonce", JS.VBigInt (nonce action))].

Definition signature_object (sig : Signature) : JS.Value :=
  JS.VObject
    [("r", JS.VString (sig_r sig));
     ("s", JS.VString (sig_s sig));
     ("v", JS.VNumber (sig_v sig))].

Definition baseUrl (testnet : bool) : string :=
  if testnet then "https://api-ui.hyperliquid-testnet.xyz"
  else "https://api-ui.hyperliquid.xyz".

Definition submit_headers (testnet : bool) : list (string * string) :=
  [("Accept", "*/*");
   ("Accept-Language", "en-GB,en;q=0.6");
   ("Connection", "keep-alive");
   ("Content-Type", "application/json");
   ("Origin", if testnet then "https://app.hyperliquid-testnet.xyz"
              else "https://app.hyperliquid.xyz");
   ("Referer", if testnet then "https://app.hyperliquid-testnet.xyz/"
               else "https://app.hyperliquid.xyz/");
   ("Sec-Fetch-Dest", "empty");
   ("Sec-Fetch-Mode", "cors");
   ("Sec-Fetch-Site", "same-site");
   ("Sec-GPC", "1");
   ("User-Agent",
    "Mozilla/5.0 (Macintosh; Intel Mac OS X 10_15_7) AppleWebKit/537.36 (KHTML, like Gecko) Chrome/141.0.0.0 Safari/537.36");
   ("sec-ch-ua",
    dquote +:+ "Brave" +:+ dquote +:+ ";v=" +:+ dquote +:+ "141" +:+ dquote +:+ ", "
    +:+ dquote +:+ "Not?A_Brand" +:+ dquote +:+ ";v=" +:+ dquote +:+ "8" +:+ dquote +:+ ", "
    +:+ dquote +:+ "Chromium" +:+ dquote +:+ ";v=" +:+ dquote +:+ "141" +:+ dquote);
   ("sec-ch-ua-mobile", "?0");
   ("sec-ch-ua-platform", dquote +:+ "macOS" +:+ dquote)].

(** The object literal [serializablePayload]. *)
Definition serializablePayload (action : LinkAction) (finalNonce : Z) (sig : Signature) : JS.Value :=
  JS.VObject
    [("action",
      JS.VObject
        [("hyperliquidChain", JS.VString (hyperliquidChain action));
         ("isFinalize", JS.VBool (isFinalize action));
         ("nonce", JS.VNumber (JS.Number_of_bigint (nonce action)));
         ("signatureChainId", JS.VString (signatureChainId action));
         ("type", JS.VString (type action));
         ("user", JS.VString (user action))]);
     ("expiresAfter", JS.VNull);
     ("isFrontend", JS.VBool true);
     ("nonce", JS.VNumber (JS.Number_of_bigint finalNonce));
     ("signature", signature_object sig);
     ("vaultAddress", JS.VNull)].

(** The object literal [action] of [signAndSubmitLink]. *)
Definition action_of (testnet isFinalize : bool) (finalNonce : Z) (userAddress : string)
    : LinkAction :=
  {| hyperliquidChain := if testnet then "Testnet" else "Mainnet";
     isFinalize := isFinalize;
     nonce := finalNonce;
     signatureChainId := if testnet then "0x3e6" else "0x1";
     type := "linkStakingUser";
     user := userAddress |}.

(** [!v || String(v).trim() === ''] on a defined [v]. *)
Definition blank (v : string) : bool :=
  negb (JS.truthy_string v) || String.eqb (JS.trim v) EmptyString.

Definition mismatch_message (recovered expected : string) : string :=
  "Local EIP-712 recovery mismatch. recovered=" +:+ recovered +:+ " expected=" +:+ expected.

Definition missing_message (name : string) : string :=
  "Missing required env var: " +:+ name.

Section Script.
Context {lib : Ethers} (w : World).

Definition getenvStrict (name : string) : M string :=
  match getenv w name with
  | None => throw (Error (missing_message name))
  | Some v => if blank v then throw (Error (missing_message name)) else mret v
  end.

Definition signLinkAction (action : LinkAction) (wallet : Wallet) (testnet : bool)
    : M Signature :=
  let chainId := JS.parseInt (signatureChainId action) in
  let domain := domain_of chainId in
  let value := value_of action in
  signature ← signTypedData wallet domain types value;
  sig ← lift (Signature_from signature);
  recovered ← verifyTypedData domain types value signature;
  let expected := address wallet in
  if negb (String.eqb (JS.toLowerCase recovered) (JS.toLowerCase expected))
  then throw (Error (mismatch_message recovered expected))
  else mret {| sig_r := sig_r sig; sig_s := sig_s sig; sig_v := sig_v sig |}.

Definition submitLinkAction (payload : JS.Value) (testnet : bool) : M Response :=
  let url := baseUrl testnet +:+ "/exchange" in
  axios_post w url payload (submit_headers testnet) 30000.

Definition signAndSubmitLink (privateKey userAddress : string)
    (isFinalize testnet : bool) (nonce : option Z) : M unit :=
  wallet ← Wallet_new privateKey;
  finalNonce ←
    match nonce with
    | Some n => if JS.truthy_bigint n then mret n else Date_now w
    | None => Date_now w
    end;
  console_log [JS.VString ("Signing with account: " +:+ address wallet)];;
  console_log [JS.VString ("User: " +:+ userAddress)];;
  console_log [JS.VString ("isFinalize: " +:+ JS.string_of_bool isFinalize)];;
  console_log [JS.VString ("Nonce: " +:+ JS.string_of_bigint finalNonce)];;
  let action := action_of testnet isFinalize finalNonce userAddress in
  sig ← signLinkAction action wallet testnet;
  console_log [JS.VString "Signature:"; signature_object sig];;
  let payload := serializablePayload action finalNonce sig in
  console_log [JS.VString "Submitting to Hyperliquid..."];;
  response ← submitLinkAction payload testnet;
  console_log [JS.VString "Response status:"; JS.VNumber (JS.Num (status response))];;
  console_log [JS.VString "Response data:"; data response].

(** [process.env.X === 'true'] and [process.env.X !== 'false']. *)
Definition env_is (name value : string) : bool :=
  match getenv w name with
  | Some v => String.eqb v value
  | None => false
  end.

Definition main : M unit :=
  now ← Date_now w;
  console_log [JS.VString ("Timestamp: " +:+ Date_toISOString now)];;
  let isFinalize := env_is "IS_FINALIZE" "true" in
  let testnet := negb (env_is "HYPERLIQUID_TESTNET" "false") in
  let nonceArg := getenv w "NONCE" in
  nonce ←
    match nonceArg with
    | Some s => if JS.truthy_string s then n ← BigInt s; mret (Some n) else mret None
    | None => mret None
    end;
  if isFinalize then
    stakingKey ← getenvStrict "STAKING_PRIVATE_KEY";
    a ← getenvStrict "STAKING_USER_ADDRESS";
    let tradingAddress := JS.toLowerCase a in
    signAndSubmitLink stakingKey tradingAddress true testnet nonce
  else
    tradingKey ← getenvStrict "TRADING_PRIVATE_KEY";
    a ← getenvStrict "TRADING_USER_ADDRESS";
    let stakingAddress := JS.toLowerCase a in
    signAndSubmitLink tradingKey stakingAddress false testnet nonce.

Definition script : Res unit * St := run main report.

End Script.

End Index.

(** ** src/unnamed/part_001: the finalizer-only script *)

Module LinkStaking.

Definition nl : string := String "010"%char EmptyString.

Section Script.
Context {lib : Ethers} (w : World).

(** [getenvStrict], [signLinkAction] and [submitLinkAction] have the same
    text in this script as in src/index.ts. *)
Definition getenvStrict : string -> M string := Index.getenvStrict w.

Definition signLinkAction : Index.LinkAction -> Wallet -> bool -> M Signature :=
  Index.signLinkAction.

Definition submitLinkAction : JS.Value -> bool -> M Response :=
  Index.submitLinkAction w.

Definition main : M unit :=
  now ← Date_now w;
  console_log [JS.VString ("Timestamp: " +:+ Date_toISOString now)];;
  console_log [JS.VString ("=== STAKING ACCOUNT - Finalizing Link ===" +:+ nl)];;
  stakingKey ← getenvStrict "STAKING_PRIVATE_KEY";
  a ← getenvStrict "STAKING_USER_ADDRESS";
  let tradingAddress := JS.toLowerCase a in
  let testnet := negb (Index.env_is w "HYPERLIQUID_TESTNET" "false") in
  let nonceArg := getenv w "NONCE" in
  wallet ← Wallet_new stakingKey;
  finalNonce ←
    match nonceArg with
    | Some s => if JS.truthy_string s then BigInt s else Date_now w
    | None => Date_now w
    end;
  console_log [JS.VString ("Signing with staking account: " +:+ address wallet)];;
  console_log [JS.VString ("Finalizing link to trading account: " +:+ tradingAddress)];;
  console_log [JS.VString ("Nonce: " +:+ JS.string_of_bigint finalNonce)];;
  let action := Index.action_of testnet true finalNonce tradingAddress in
  sig ← signLinkAction action wallet testnet;
  console_log [JS.VString "Signature:"; Index.signature_object sig];;
  let payload := Index.serializablePayload action finalNonce sig in
  console_log [JS.VString (nl +:+ "Submitting to Hyperliquid...")];;
  response ← submitLinkAction payload testnet;
  console_log [JS.VString "Response status:"; JS.VNumber (JS.Num (status response))];;
  console_log [JS.VString "Response data:"; data response].

Definition script : Res unit * St := run main report.

End Script.

End LinkStaking.

(** ** src/scripts/sign_message_and_call_api.ts *)

Module SignMessage.

Record Signed := { signature : string; signer : string }.

Section Script.
Context {lib : Ethers} (w : World).

Definition getenvStrict : string -> M string := Index.getenvStrict w.

(** [process.env[name] || fallback]. *)
Definition getenv_or (name fallback : string) : string :=
  match getenv w name with
  | Some v => if JS.truthy_string v then v else fallback
  | None => fallback
  end.

Definition signPersonal (message : string) (wallet : Wallet) : M Signed :=
  sg ← signMessage wallet message;
  mret {| signature := sg; signer := address wallet |}.

Definition signTyped (typedData : JS.Value) (wallet : Wallet) : M Signed :=
  match typedData with
  | JS.VNull | JS.VUndefined =>
      throw (TypeError "Cannot destructure property 'domain' of 'typedData'")
  | _ =>
      let domain := JS.get "domain" typedData in
      let types := JS.get "types" typedData in
      let message := JS.get "message" typedData in
      sg ← signTypedData wallet domain types message;
      mret {| signature := sg; signer := address wallet |}
  end.

Definition callApi (url sg addr : string) (payload : JS.Value) : M Response :=
  let headers :=
    [("X-Eth-Address", addr);
     ("X-Eth-Signature", sg);
     ("Content-Type", "application/json")] in
  axios_post w url payload headers 30000.

Definition main : M unit :=
  now ← Date_now w;
  console_log [JS.VString ("Timestamp: " +:+ Date_toISOString now)];;
  rpcUrl ← getenvStrict "ETH_RPC_URL";
  privateKey ← getenvStrict "PRIVATE_KEY";
  apiUrl ← getenvStrict "TARGET_API_URL";
  getBlockNumber w rpcUrl;;
  wallet ← Wallet_new privateKey;
  let mode := JS.toLowerCase (getenv_or "SIGN_MODE" "personal") in
  result ←
    (if String.eqb mode "personal" then
       let message := getenv_or "MESSAGE" "Hello from Node signer" in
       signPersonal message wallet
     else if String.eqb mode "typed" then
       raw ← getenvStrict "TYPED_DATA_JSON";
       parsed ← lift (JSON_parse raw);
       signTyped parsed wallet
     else throw (Error "SIGN_MODE must be 'personal' or 'typed'"));
  console_log [JS.VString ("Signed by: " +:+ signer result)];;
  console_log [JS.VString ("Signature: " +:+ signature result)];;
  let payloadRaw := getenv_or "API_PAYLOAD_JSON" "{}" in
  payload ← lift (JSON_parse payloadRaw);
  response ← callApi apiUrl (signature result) (signer result) payload;
  console_log [JS.VString ("API status: " +:+ pretty (status response))];;
  console_log [data response].

Definition script : Res unit * St := run main report.

End Script.

End SignMessage.

(** ** The transfer script (second script of sign_message_and_call_api.ts) *)

Module SendTx.

Section Script.
Context {lib : Ethers} (w : World).

Definition getenvStrict : string -> M string := Index.getenvStrict w.

(** [process.env[name] ?? fallback]. *)
Definition getenv_nullish (name fallback : string) : string :=
  match getenv w name with
  | Some v => v
  | None => fallback
  end.

Definition toWeiEth (amount : string) : M Z := lift (parseEther amount).

(** [e?.message || e] inside a template string. *)
Definition reason_text (e : Exn) : string :=
  if JS.truthy_string (message_of e) then message_of e else class_of e.

Definition includes (x : string) (l : list string) : bool :=
  existsb (String.eqb x) l.

Definition main : M unit :=
  now ← Date_now w;
  console_log [JS.VString ("Timestamp: " +:+ Date_toISOString now)];;
  rpcUrl ← getenvStrict "ETH_RPC_URL";
  c ← getenvStrict "CHAIN_ID";
  chainId ← BigInt c;
  privateKey ← getenvStrict "PRIVATE_KEY";
  to ← getenvStrict "TO_ADDRESS";
  amountEth ← getenvStrict "AMOUNT_ETH";
  getBlockNumber w rpcUrl;;
  wallet ← Wallet_new privateKey;
  let maxPriorityFeeGwei := getenv_nullish "MAX_PRIORITY_FEE_GWEI" "2" in
  let maxFeeGwei := getenv_nullish "MAX_FEE_GWEI" "60" in
  maxPriorityFeePerGas ← lift (parseUnits maxPriorityFeeGwei "gwei");
  maxFeePerGas ← lift (parseUnits maxFeeGwei "gwei");
  value ← toWeiEth amountEth;
  let txRequest :=
    [("chainId", JS.VNumber (JS.Number_of_bigint chainId));
     ("to", JS.VString to);
     ("value", JS.VBigInt value);
     ("type", JS.VNumber (JS.Num 2));
     ("maxPriorityFeePerGas", JS.VBigInt maxPriorityFeePerGas);
     ("maxFeePerGas", JS.VBigInt maxFeePerGas)] in
  gasLimit ←
    try_catch (estimateGas w rpcUrl (address wallet) to value)
      (fun e => throw (Error ("Gas estimation failed: " +:+ reason_text e)));
  let gasLimit := Z.quot (gasLimit * 11) 10 in
  hash ← sendTransaction w rpcUrl wallet
           (JS.VObject (txRequest ++ [("gasLimit", JS.VBigInt gasLimit)]));
  console_log [JS.VString ("Transaction sent: " +:+ hash)];;
  let wait_flag := JS.toLowerCase (getenv_nullish "WAIT_FOR_RECEIPT" "true") in
  if includes wait_flag ["1"; "true"; "yes"] then
    receipt ← wait w rpcUrl hash;
    match receipt with
    | Some rc =>
        console_log
          [JS.VString ("Receipt status: " +:+ pretty (receipt_status rc)
                       +:+ " | Block: " +:+ pretty (blockNumber rc))]
    | None => throw (TypeError "Cannot read properties of null (reading 'status')")
    end
  else mret tt.

(** The handler of this script prints [e?.message || e]. *)
Definition reason (e : Exn) : Reported :=
  if JS.truthy_string (message_of e) then RMessage (message_of e) else RException e.

Definition script : Res unit * St := run main reason.

End Script.

End SendTx.

(** ** Observations on a trace *)

(** Cryptographic or network work: everything but console output and the
    exit of the process. *)
Definition is_work (e : Event) : bool :=
  match e with
  | NewWallet _ | SignTypedData _ _ _ _ | SignMessage _ _
  | VerifyTypedData _ _ _ _ | Rpc _ _ | HttpPost _ => true
  | ConsoleLog _ | ConsoleError _ _ | Exit _ => false
  end.

Definition is_signing (e : Event) : bool :=
  match e with
  | SignTypedData _ _ _ _ | SignMessage _ _ => true
  | _ => false
  end.


(** No cryptographic or network work at all. *)
Definition quiet (tr : list Event) : bool := forallb (fun e => negb (is_work e)) tr.

(** The HTTP requests of a trace, in order. *)
Fixpoint posts (tr : list Event) : list HttpRequest :=
  match tr with
  | [] => []
  | HttpPost req :: rest => req :: posts rest
  | _ :: rest => posts rest
  end.


(** The typed data handed to the signer and to the verifier: (domain,
    types, value) of every [SignTypedData] and [VerifyTypedData]. *)
Fixpoint typed_data (tr : list Event) : list (JS.Value * JS.Value * JS.Value) :=
  match tr with
  | [] => []
  | SignTypedData _ d t x :: rest => (d, t, x) :: typed_data rest
  | VerifyTypedData d t x _ :: rest => (d, t, x) :: typed_data rest
  | _ :: rest => typed_data rest
  end.

(** The signer of every [SignTypedData] and the (domain, types, value,
    signature) of every [VerifyTypedData]. *)
Fixpoint signers (tr : list Event) : list string :=
  match tr with
  | [] => []
  | SignTypedData signer _ _ _ :: rest => signer :: signers rest
  | _ :: rest => signers rest
  end.

Fixpoint verifications (tr : list Event) : list (JS.Value * JS.Value * JS.Value * string) :=
  match tr with
  | [] => []
  | VerifyTypedData d t x sg :: rest => (d, t, x, sg) :: verifications rest
  | _ :: rest => verifications rest
  end.

(** What follows the first HTTP request of a trace, if there is one. *)
Fixpoint after_post (tr : list Event) : option (list Event) :=
  match tr with
  | [] => None
  | HttpPost _ :: rest => Some rest
  | _ :: rest => after_post rest
  end.

(** What precedes the first HTTP request of a trace (the whole trace when
    there is none). *)
Fixpoint before_post (tr : list Event) : list Event :=
  match tr with
  | [] => []
  | HttpPost _ :: _ => []
  | e :: rest => e :: before_post rest
  end.

(** The nonces inside the values handed to the signer and the verifier. *)
Definition signed_nonces (tr : list Event) : list JS.Value :=
  map (fun '(_, _, x) => JS.get "nonce" x) (typed_data tr).

(** Every request of the trace carries, in both places, the number that
    [Number] makes of a nonce handed to the signer before it. *)
Definition nonces_agree (tr : list Event) : Prop :=
  Forall
    (fun req =>
       exists n,
         In (JS.VBigInt n) (signed_nonces (before_post tr))
         /\ JS.get "nonce" (body req) = JS.VNumber (JS.Number_of_bigint n)
         /\ JS.get "nonce" (JS.get "action" (body req))
            = JS.VNumber (JS.Number_of_bigint n))
    (posts tr).

(** ** Vocabulary of the properties *)

(** A variable that [getenvStrict] rejects: unset, empty or blank. *)
Definition missing (w : World) (name : string) : bool :=
  match getenv w name with
  | None => true
  | Some v => Index.blank v
  end.

(** No NONCE is supplied: the variable is unset or empty. *)
Definition no_nonce (w : World) : bool :=
  match getenv w "NONCE" with
  | None => true
  | Some s => negb (JS.truthy_string s)
  end.

Fixpoint starts_with (p s : string) : bool :=
  match p, s with
  | EmptyString, _ => true
  | String a p', String b s' => Ascii.eqb a b && starts_with p' s'
  | String _ _, EmptyString => false
  end.

(** A configuration error: the Error of [getenvStrict], or the SyntaxError
    of a variable that does not parse ([BigInt] on NONCE or CHAIN_ID). *)
Definition config_error (e : Exn) : bool :=
  match e with
  | Error m => starts_with "Missing required env var: " m
  | SyntaxError _ => true
  | _ => false
  end.

(** The run failed on its configuration before any cryptographic or
    network work. *)
Definition fails_quietly (r : Res unit * St) : Prop :=
  (exists e, fst r = Throw e /\ config_error e = true)
  /\ quiet (trace (snd r)) = true.

(** A 20-byte address in hexadecimal: an optional 0x, then 40 hexadecimal
    digits. *)
Definition is_hex_digit (c : ascii) : bool :=
  match JS.digit_value 16 c with
  | Some _ => true
  | None => false
  end.

Fixpoint all_hex (s : string) : bool :=
  match s with
  | EmptyString => true
  | String c rest => is_hex_digit c && all_hex rest
  end.

Definition is_hex_address (s : string) : bool :=
  let digits :=
    match s with
    | String "0" (String "x" rest) => rest
    | _ => s
    end in
  Nat.eqb (String.length digits) 40 && all_hex digits.


(** The run failed, and neither signed nor posted anything. *)
Definition fails_unsigned (r : Res unit * St) : Prop :=
  (exists e, fst r = Throw e)
  /\ forallb (fun e => negb (is_signing e)) (trace (snd r)) = true
  /\ posts (trace (snd r)) = [].



Section Vocabulary.
Context {lib : Ethers}.

(** The address recovered from the typed data (d, t, x) and the signature
    [sg] is the signer's, up to case. *)
Definition recovers (signer : string) (d t x : JS.Value) (sg : string) : Prop :=
  exists digest recovered,
    TypedDataEncoder_hash d t x = Ok digest
    /\ recoverAddress digest sg = Ok recovered
    /\ JS.toLowerCase recovered = JS.toLowerCase signer.

(** The round trip of the library: from a digest and its signature by a
    key, recovery gives the address of that key. *)
Definition round_trip : Prop :=
  forall key addr digest,
    computeAddress key = Ok addr ->
    recoverAddress digest (SigningKey_sign key digest) = Ok addr.


(** Every submission of the trace comes after a signature and its
    successful local verification. *)
Definition guarded (tr : list Event) : Prop :=
  Forall
    (fun _ : HttpRequest =>
       exists signer d t x sg,
         In (SignTypedData signer d t x) (before_post tr)
         /\ In (VerifyTypedData d t x sg) (before_post tr)
         /\ recovers signer d t x sg)
    (posts tr).

(** A verification of the trace that recovers another address than the
    signer's ends the run with the mismatch error and without
    submission. *)
Definition refuses (r : Res unit * St) : Prop :=
  Forall
    (fun signer =>
       Forall
         (fun '(d, t, x, sg) =>
            forall digest recovered,
              TypedDataEncoder_hash d t x = Ok digest ->
              recoverAddress digest sg = Ok recovered ->
              JS.toLowerCase recovered <> JS.toLowerCase signer ->
              fst r = Throw (Error (Index.mismatch_message recovered signer))
              /\ posts (trace (snd r)) = [])
         (verifications (trace (snd r))))
    (signers (trace (snd r))).

(** A run of a link script for role [fin] with nonce [n], by the wallet
    of [key] at [addr] towards [peer]: the nonce is printed, the action
    {hyperliquidChain, isFinalize = fin, nonce = n, signatureChainId,
     type, user = peer} is handed to the signer, and when signing and
    local verification succeed the action is submitted with that nonce;
    the run then succeeds if the service answers. *)
Definition links_with_nonce (w : World) (fin : bool) (key addr peer : string) (n : Z)
    (r : Res unit * St) : Prop :=
  let testnet := negb (Index.env_is w "HYPERLIQUID_TESTNET" "false") in
  let action := Index.action_of testnet fin n peer in
  let wallet := {| privateKey := key; address := addr |} in
  In (ConsoleLog [JS.VString ("Nonce: " +:+ JS.string_of_bigint n)]) (trace (snd r))
  /\ In (SignTypedData addr
           (Index.domain_of (JS.parseInt (Index.signatureChainId action)))
           Index.types (Index.value_of action))
        (trace (snd r))
  /\ (forall sig,
        fst (Index.signLinkAction action wallet testnet St0) = Ok sig ->
        posts (trace (snd r))
        = [{| url := Index.baseUrl testnet +:+ "/exchange";
              body := Index.serializablePayload action n sig;
              headers := Index.submit_headers testnet;
              timeout := 30000 |}]
        /\ (forall resp,
              http w {| url := Index.baseUrl testnet +:+ "/exchange";
                        body := Index.serializablePayload action n sig;
                        headers := Index.submit_headers testnet;
                        timeout := 30000 |} = inr resp ->
              fst r = Ok tt)).

End Vocabulary.

(** ** A small instance of the library and of the world

    Used to run the scripts on concrete inputs.  Keys 1 and 2 have their
    well-known addresses; digests and signatures are symbolic strings from
    which [recoverAddress] reads the signer back. *)

Module Demo.

Definition key1 : string :=
  "0x0000000000000000000000000000000000000000000000000000000000000001".
Definition key2 : string :=
  "0x0000000000000000000000000000000000000000000000000000000000000002".
Definition addr1 : string := "0x7E5F4552091A69125d5DfCb7b8C2659029395Bdf".
Definition addr2 : string := "0x2B5AD5c4795c026514f8317c7a215E218DcCD6cF".

Definition address_of_key (key : string) : Res string :=
  if String.eqb key key1 then Ok addr1
  else if String.eqb key key2 then Ok addr2
  else Throw (Error "invalid private key").

Definition digest : string :=
  "0x3c2f1d9b5a7e4c6d8f0a1b2c3d4e5f60718293a4b5c6d7e8f9a0b1c2d3e4f506".

Definition sign (key dg : string) : string := "sig:" +:+ key +:+ ":" +:+ dg.

Definition recover (dg sg : string) : Res string :=
  if String.eqb sg (sign key1 dg) then Ok addr1
  else if String.eqb sg (sign key2 dg) then Ok addr2
  else Throw (Error "invalid signature").

Definition parts : Signature :=
  {| sig_r := "0x9f150809ad6e882b6e8f0c4dc4b0c5d58d6fd84ee8d48aef7e37b8d60f3d4f5a";
     sig_s := "0x4c0f2b5e9e1c5a8f6d3b7a9e0c2d4f6a8b0c1d3e5f7a9b1c3d5e7f9a0b2c4d6e";
     sig_v := JS.Num 27 |}.

Definition parse_amount (scale : Z) (s : string) : Res Z :=
  match JS.BigInt_of_string s with
  | Some z => Ok (z * scale)
  | None => Throw (Error "invalid FixedNumber string value")
  end.

Definition parse_json (s : string) : Res JS.Value :=
  if String.eqb s "{}" then Ok (JS.VObject [])
  else if String.eqb s "null" then Ok JS.VNull
  else Throw (SyntaxError "Unexpected token in JSON").

(** An encoder that checks the user of a link value and accepts any
    other typed data. *)
Definition hash (d t x : JS.Value) : Res string :=
  match JS.get "HyperliquidTransaction:LinkStakingUser" t with
  | JS.VUndefined => Ok digest
  | _ =>
      match JS.get "user" x with
      | JS.VString s =>
          if is_hex_address s then Ok digest else Throw (Error "invalid address")
      | _ => Throw (Error "missing value for field user")
      end
  end.

(** A library whose recovery inverts its signing. *)
Definition ethers : Ethers :=
  {| computeAddress := address_of_key;
     TypedDataEncoder_hash := hash;
     hashMessage := fun _ => digest;
     SigningKey_sign := sign;
     Signature_from := fun _ => Ok parts;
     recoverAddress := recover;
     parseEther := parse_amount (10 ^ 18);
     parseUnits := fun s _ => parse_amount (10 ^ 9) s;
     Date_toISOString := fun z => "epoch+" +:+ pretty z +:+ "ms";
     JSON_parse := parse_json |}.

(** A library whose recovery answers the other address: what an encoding
    fault between signer and verifier would look like. *)
Definition faulty : Ethers :=
  {| computeAddress := address_of_key;
     TypedDataEncoder_hash := hash;
     hashMessage := fun _ => digest;
     SigningKey_sign := sign;
     Signature_from := fun _ => Ok parts;
     recoverAddress := fun _ _ => Ok addr2;
     parseEther := parse_amount (10 ^ 18);
     parseUnits := fun s _ => parse_amount (10 ^ 9) s;
     Date_toISOString := fun z => "epoch+" +:+ pretty z +:+ "ms";
     JSON_parse := parse_json |}.

Definition accepted : Response :=
  {| status := 200; data := JS.VObject [("status", JS.VString "ok")] |}.

(** A world with the given environment, a clock that starts at
    1761995511314 ms and advances 3 ms per reading, and a network that
    answers every request. *)
Definition world (vars : list (string * string)) : World :=
  {| env := list_to_map vars;
     clock := fun k => 1761995511314 + 3 * Z.of_nat k;
     http := fun _ => inr accepted;
     rpc_getBlockNumber := fun _ => Ok 21000000;
     rpc_estimateGas := fun _ _ _ _ => Ok 21000;
     rpc_sendTransaction := fun _ _ _ => Ok "0xfeed";
     rpc_wait := fun _ _ => Ok (Some {| receipt_status := 1; blockNumber := 21000001 |}) |}.


Definition finalizer_env : list (string * string) :=
  [("IS_FINALIZE", "true");
   ("STAKING_PRIVATE_KEY", key2);
   ("STAKING_USER_ADDRESS", addr1)].

Definition initiator_env : list (string * string) :=
  [("TRADING_PRIVATE_KEY", key1);
   ("TRADING_USER_ADDRESS", addr2)].

Definition api_env : list (string * string) :=
  [("ETH_RPC_URL", "https://rpc.example.org");
   ("PRIVATE_KEY", key1);
   ("TARGET_API_URL", "https://api.example.org/auth")].

End Demo.


(** ** Vocabulary of the further properties *)

(** The string has a character that is not white space. *)
Fixpoint visible (s : string) : bool :=
  match s with
  | EmptyString => false
  | String c rest => negb (JS.isWhiteSpace c) || visible rest
  end.

(** NONCE is supplied and converts to the bigint 0. *)
Definition nonce_is_zero (w : World) : bool :=
  match getenv w "NONCE" with
  | Some s =>
      match JS.BigInt_of_string s with
      | Some n => JS.truthy_string s && (n =? 0)
      | None => false
      end
  | None => false
  end.

(** The line of the top-level handler and the exit of the process. *)
Definition is_final (e : Event) : bool :=
  match e with
  | ConsoleError _ _ | Exit _ => true
  | _ => false
  end.

(** The run of a whole script: when [main] returns, nothing is printed on
    the error stream and the process is not made to exit; when it throws
    [e], the trace ends with the one line of the handler, "Error:" and
    the reason of [e], followed by the exit with code 1. *)
Definition exits_on_error (reason : Exn -> Reported) (r : Res unit * St) : Prop :=
  match fst r with
  | Ok _ => forallb (fun e => negb (is_final e)) (trace (snd r)) = true
  | Throw e =>
      exists pre,
        List.rev (trace (snd r)) = Exit 1 :: ConsoleError "Error:" (reason e) :: pre
        /\ forallb (fun e => negb (is_final e)) pre = true
  end.

(** What the handler of a script prints after a failed request: the body
    of the answer of the service when there is one and it is truthy,
    else the message of the failure, else the failure itself. *)
Definition reports_failure (w : World) (r : Res unit * St) : Prop :=
  Forall
    (fun req =>
       match http w req with
       | inr _ => True
       | inl failure =>
           after_post (trace (snd r))
           = Some [ConsoleError "Error:"
                     match failure with
                     | BadStatus m resp =>
                         if truthy (data resp) then RData (data resp)
                         else if JS.truthy_string m then RMessage m
                         else RException (AxiosError failure)
                     | TimedOut m | NetworkError m =>
                         if JS.truthy_string m then RMessage m
                         else RException (AxiosError failure)
                     end;
                   Exit 1]
       end)
    (posts (trace (snd r))).

(** The calls made to the JSON-RPC endpoint, in order. *)
Fixpoint rpc_calls (tr : list Event) : list (string * RpcCall) :=
  match tr with
  | [] => []
  | Rpc u c :: rest => (u, c) :: rpc_calls rest
  | _ :: rest => rpc_calls rest
  end.

Definition is_send (c : string * RpcCall) : bool :=
  match snd c with
  | SendTransaction _ _ => true
  | _ => false
  end.

(** The transaction hashes the script waits for, with the endpoint. *)
Fixpoint waits (calls : list (string * RpcCall)) : list (string * string) :=
  match calls with
  | [] => []
  | (u, WaitForReceipt h) :: rest => (u, h) :: waits rest
  | _ :: rest => waits rest
  end.

Section Transfer.
Context {lib : Ethers} (w : World).

(** The one transaction of the transfer script: an EIP-1559 transfer of
    AMOUNT_ETH to TO_ADDRESS on CHAIN_ID, from the wallet of PRIVATE_KEY,
    with the fees of the environment (2 and 60 gwei when absent) and, as
    gas limit, the estimate of the endpoint for this transfer plus a
    tenth, rounded down. *)
Definition configured_transfer (u signer : string) (tx : JS.Value) : Prop :=
  exists key c chainId to amount value tip cap height g,
    getenv w "ETH_RPC_URL" = Some u
    /\ getenv w "CHAIN_ID" = Some c
    /\ JS.BigInt_of_string c = Some chainId
    /\ getenv w "PRIVATE_KEY" = Some key
    /\ getenv w "TO_ADDRESS" = Some to
    /\ getenv w "AMOUNT_ETH" = Some amount
    /\ rpc_getBlockNumber w u = Ok height
    /\ computeAddress key = Ok signer
    /\ parseUnits (SendTx.getenv_nullish w "MAX_PRIORITY_FEE_GWEI" "2") "gwei" = Ok tip
    /\ parseUnits (SendTx.getenv_nullish w "MAX_FEE_GWEI" "60") "gwei" = Ok cap
    /\ parseEther amount = Ok value
    /\ rpc_estimateGas w u signer to value = Ok g
    /\ (0 <= g -> g <= Z.quot (g * 11) 10 /\ 10 * Z.quot (g * 11) 10 <= 11 * g)
    /\ tx = JS.VObject
              [("chainId", JS.VNumber (JS.Number_of_bigint chainId));
               ("to", JS.VString to);
               ("value", JS.VBigInt value);
               ("type", JS.VNumber (JS.Num 2));
               ("maxPriorityFeePerGas", JS.VBigInt tip);
               ("maxFeePerGas", JS.VBigInt cap);
               ("gasLimit", JS.VBigInt (Z.quot (g * 11) 10))].

Definition sends_configured_transfer (tr : list Event) : Prop :=
  (length (List.filter is_send (rpc_calls tr)) <= 1)%nat
  /\ Forall (fun '(u, c) =>
               match c with
               | SendTransaction signer tx => configured_transfer u signer tx
               | _ => True
               end) (rpc_calls tr).

(** A refused estimate ends the run with the wrapped reason and nothing
    is sent. *)
Definition stops_on_failed_estimate (r : Res unit * St) : Prop :=
  Forall (fun '(u, c) =>
            match c with
            | EstimateGas from to value =>
                match rpc_estimateGas w u from to value with
                | Ok _ => True
                | Throw e =>
                    fst r = Throw (Error ("Gas estimation failed: " +:+ SendTx.reason_text e))
                    /\ List.filter is_send (rpc_calls (trace (snd r))) = []
                end
            | _ => True
            end) (rpc_calls (trace (snd r))).

(** The value of WAIT_FOR_RECEIPT the script tests. *)
Definition wait_flag : string :=
  JS.toLowerCase (SendTx.getenv_nullish w "WAIT_FOR_RECEIPT" "true").

(** The script waits for the hash the endpoint answered to its
    transaction, at the same endpoint, when the flag is one of 1, true,
    yes, and for nothing otherwise. *)
Definition waits_when_asked (tr : list Event) : Prop :=
  (SendTx.includes wait_flag ["1"; "true"; "yes"] = false -> waits (rpc_calls tr) = [])
  /\ (List.filter is_send (rpc_calls tr) = [] -> waits (rpc_calls tr) = [])
  /\ Forall (fun '(u, c) =>
               match c with
               | SendTransaction signer tx =>
                   forall key, getenv w "PRIVATE_KEY" = Some key ->
                     match rpc_sendTransaction w u key tx with
                     | Ok h =>
                         waits (rpc_calls tr)
                         = if SendTx.includes wait_flag ["1"; "true"; "yes"]
                           then [(u, h)] else []
                     | Throw _ => waits (rpc_calls tr) = []
                     end
               | _ => True
               end) (rpc_calls tr).

(** How a run that sent its transaction ends: with what the endpoint
    threw at the transaction or at the wait, with a TypeError when the
    receipt is null, and normally otherwise. *)
Definition ends_after_send (r : Res unit * St) : Prop :=
  Forall (fun '(u, c) =>
            match c with
            | SendTransaction signer tx =>
                forall key, getenv w "PRIVATE_KEY" = Some key ->
                  fst r =
                  match rpc_sendTransaction w u key tx with
                  | Throw e => Throw e
                  | Ok h =>
                      if SendTx.includes wait_flag ["1"; "true"; "yes"] then
                        match rpc_wait w u h with
                        | Throw e => Throw e
                        | Ok None =>
                            Throw (TypeError "Cannot read properties of null (reading 'status')")
                        | Ok (Some _) => Ok tt
                        end
                      else Ok tt
                  end
            | _ => True
            end) (rpc_calls (trace (snd r))).

End Transfer.

Section Api.
Context {lib : Ethers} (w : World).

(** The value of SIGN_MODE the API script tests. *)
Definition sign_mode : string :=
  JS.toLowerCase (SignMessage.getenv_or w "SIGN_MODE" "personal").

(** What the wallet of the API script is asked to sign: at most one
    thing, the text of MESSAGE in mode personal and the three parts of
    the document of TYPED_DATA_JSON in mode typed; nothing is verified. *)
Definition signs_what_mode_says (tr : list Event) : Prop :=
  (length (List.filter is_signing tr) <= 1)%nat
  /\ verifications tr = []
  /\ Forall (fun e =>
               match e with
               | SignMessage _ m =>
                   sign_mode = "personal"
                   /\ m = SignMessage.getenv_or w "MESSAGE" "Hello from Node signer"
               | SignTypedData _ d t x =>
                   sign_mode = "typed"
                   /\ exists raw doc,
                        getenv w "TYPED_DATA_JSON" = Some raw
                        /\ JSON_parse raw = Ok doc
                        /\ d = JS.get "domain" doc
                        /\ t = JS.get "types" doc
                        /\ x = JS.get "message" doc
               | _ => True
               end) tr.

(** The signature a wallet with the key [key] returns for a signing
    event, and the address the event was signed for. *)
Definition signature_of (key : string) (e : Event) : option string :=
  match e with
  | SignMessage _ m => Some (SigningKey_sign key (hashMessage m))
  | SignTypedData _ d t x =>
      match TypedDataEncoder_hash d t x with
      | Ok digest => Some (SigningKey_sign key digest)
      | Throw _ => None
      end
  | _ => None
  end.

Definition signer_of (e : Event) : option string :=
  match e with
  | SignMessage a _ | SignTypedData a _ _ _ => Some a
  | _ => None
  end.

(** The request of the API script: to TARGET_API_URL, with the document
    of API_PAYLOAD_JSON ({} when absent or empty) as body, and with the
    address of the wallet of PRIVATE_KEY and the signature of the one
    signing that precedes it as headers. *)
Definition api_request (tr : list Event) (req : HttpRequest) : Prop :=
  exists key addr e sg,
    getenv w "PRIVATE_KEY" = Some key
    /\ computeAddress key = Ok addr
    /\ List.filter is_signing (before_post tr) = [e]
    /\ signer_of e = Some addr
    /\ signature_of key e = Some sg
    /\ getenv w "TARGET_API_URL" = Some (url req)
    /\ JSON_parse (SignMessage.getenv_or w "API_PAYLOAD_JSON" "{}") = Ok (body req)
    /\ headers req = [("X-Eth-Address", addr);
                      ("X-Eth-Signature", sg);
                      ("Content-Type", "application/json")].

End Api.

(** ** Sample environments of the further properties *)

Module Sample.

Definition transfer_env : list (string * string) :=
  [("ETH_RPC_URL", "https://rpc.example.org");
   ("CHAIN_ID", "11155111");
   ("PRIVATE_KEY", Demo.key1);
   ("TO_ADDRESS", Demo.addr2);
   ("AMOUNT_ETH", "1")].

Definition with_nonce (s : string) : list (string * string) :=
  ("NONCE", s) :: Demo.finalizer_env.

Definition with_mode (s : string) : list (string * string) :=
  ("SIGN_MODE", s) :: Demo.api_env.

End Sample.

(** * Properties *)

Arguments String.append : simpl never.
Arguments JS.toLowerCase : simpl never.
Arguments JS.parseInt : simpl never.
Arguments JS.BigInt_of_string : simpl never.
Arguments JS.Number_of_bigint : simpl never.
Arguments JS.string_of_bigint : simpl never.
Arguments Index.blank : simpl never.
Arguments pretty : simpl never.

(** ** Proof automation: running a script by cases on what it reads *)

Ltac unfold_monad :=
  unfold try_catch, console_log, throw, lift, emit, mbind, mret, M_bind, M_ret in *.

Ltac unfold_runtime :=
  unfold Wallet_new, signTypedData, verifyTypedData, signMessage, axios_post,
    getBlockNumber, estimateGas, sendTransaction, wait, BigInt, Date_now in *.

Ltac unfold_link :=
  unfold Index.script, LinkStaking.script, run,
    Index.main, LinkStaking.main, LinkStaking.getenvStrict,
    LinkStaking.signLinkAction, LinkStaking.submitLinkAction,
    Index.signAndSubmitLink, Index.submitLinkAction, Index.signLinkAction,
    Index.getenvStrict, St0 in *.

Ltac unfold_scripts :=
  unfold SignMessage.script, SendTx.script, run,
    SignMessage.main, SignMessage.getenvStrict, SignMessage.signPersonal,
    SignMessage.signTyped, SignMessage.callApi,
    SendTx.main, SendTx.getenvStrict, SendTx.toWeiEth,
    Index.getenvStrict, St0 in *.

(** Case split on the innermost scrutinee first, so that each split is on
    something the script reads: a variable of the environment, an answer
    of the library or of the network. *)
Ltac break_match_in H :=
  match type of H with
  | context [match ?x with _ => _ end] =>
      lazymatch x with
      | context [match _ with _ => _ end] => fail
      | _ => destruct x eqn:?
      end
  end.

(** Use what is already known about a scrutinee instead of splitting on it. *)
Ltac rewrite_known H :=
  match goal with
  | E : ?lhs = _ |- _ =>
      lazymatch type of H with
      | context [match lhs with _ => _ end] => rewrite E in H
      end
  end.

(** [run_of t]: replace the run [t] of a script by each of its possible
    outcomes, one goal per path through the script. *)
Ltac run_of t :=
  let r := fresh "r" in
  let Hr := fresh "Hr" in
  remember t as r eqn:Hr;
  unfold_link; unfold_scripts; unfold_runtime; unfold_monad;
  cbn [fst snd trace ticks app] in Hr;
  repeat (first [rewrite_known Hr | break_match_in Hr];
          cbn [fst snd trace ticks app] in Hr);
  subst r; cbn [fst snd trace ticks].

(** Membership in an explicit trace. *)
Ltac find_in := repeat first [left; reflexivity | right].

(** The comparison of the lower-cased addresses, as a proposition. *)
Ltac lower_eq :=
  match goal with
  | H : negb (String.eqb ?a ?b) = false |- _ =>
      apply negb_false_iff in H; apply String.eqb_eq in H
  | H : negb (String.eqb ?a ?b) = true |- _ =>
      apply negb_true_iff in H; apply String.eqb_neq in H
  end.

(** Two answers of the library to the same question are the same. *)
Ltac same_answers :=
  repeat match goal with
         | H1 : ?f = _, H2 : ?f = _ |- _ =>
             rewrite H1 in H2; first [discriminate H2 | injection H2 as <-]
         end.

(** ** Built-ins *)



Lemma Number_of_bigint_exact (n : Z) :
  Z.abs n < 2 ^ 53 -> JS.Number_of_bigint n = JS.Num n.
Proof.
  intros Hn. unfold JS.Number_of_bigint.
  destruct (Z.ltb_spec (Z.abs n) (2 ^ 53)); [reflexivity | lia].
Qed.

(** On a uint64 at or above 2^53, [Number] returns a multiple of the spacing
    2^e of the doubles around it (e = log2 n - 52) that is at most half that
    spacing away. *)
Lemma Number_of_bigint_nearest (n : Z) :
  2 ^ 53 <= n < 2 ^ 64 ->
  exists x : Z,
    JS.Number_of_bigint n = JS.Num x
    /\ (2 ^ (Z.log2 n - 52) | x)
    /\ 2 * Z.abs (x - n) <= 2 ^ (Z.log2 n - 52).
Proof.
  intros [Hlo Hhi].
  assert (Hlog : 53 <= Z.log2 n < 64).
  { split.
    - change 53 with (Z.log2 (2 ^ 53)). now apply Z.log2_le_mono.
    - apply Z.log2_lt_pow2; lia. }
  unfold JS.Number_of_bigint.
  rewrite (Z.abs_eq n) by lia.
  destruct (Z.ltb_spec n (2 ^ 53)) as [|_]; [lia|].
  set (e := Z.log2 n - 52) in *.
  assert (He : 1 <= e <= 11) by (subst e; lia).
  rewrite Z.shiftr_div_pow2, Z.land_ones, Z.shiftl_1_l by lia.
  assert (Hpow : 2 ^ e = 2 * 2 ^ (e - 1)).
  { replace e with (Z.succ (e - 1)) at 1 by lia. apply Z.pow_succ_r. lia. }
  assert (Hhalf : 0 < 2 ^ (e - 1)) by (apply Z.pow_pos_nonneg; lia).
  assert (Hbig : 2 ^ e <= 2 ^ 11) by (apply Z.pow_le_mono_r; lia).
  pose proof (Z.div_mod n (2 ^ e) ltac:(lia)) as Hdm.
  pose proof (Z.mod_pos_bound n (2 ^ e) ltac:(lia)) as Hmod.
  set (q := n / 2 ^ e) in *. set (rest := n mod 2 ^ e) in *.
  assert (Hsgn : Z.sgn n = 1) by (apply Z.sgn_pos; lia).
  rewrite Hsgn, Z.mul_1_l.
  set (up := (2 ^ (e - 1) <? rest) || ((rest =? 2 ^ (e - 1)) && Z.odd q)).
  assert (Hq : 0 <= q) by (subst q; apply Z.div_pos; lia).
  destruct up eqn:Hup; subst up.
  - rewrite Z.shiftl_mul_pow2 by lia.
    assert (Hr : 2 ^ (e - 1) <= rest).
    { apply orb_true_iff in Hup as [H|H].
      - apply Z.ltb_lt in H. lia.
      - apply andb_true_iff in H as [H _]. apply Z.eqb_eq in H. lia. }
    destruct (Z.leb_spec (2 ^ 1024) ((q + 1) * 2 ^ e)) as [Hover|_].
    + exfalso. assert (2 ^ 66 < 2 ^ 1024) by (apply Z.pow_lt_mono_r; lia).
      assert (2 ^ 64 + 2 ^ 11 < 2 ^ 66) by (vm_compute; reflexivity). nia.
    + exists ((q + 1) * 2 ^ e). split; [reflexivity|]. split.
      * exists (q + 1). reflexivity.
      * rewrite Z.abs_eq by nia. nia.
  - rewrite Z.shiftl_mul_pow2 by lia.
    assert (Hr : rest <= 2 ^ (e - 1)).
    { apply orb_false_iff in Hup as [H _]. apply Z.ltb_ge in H. lia. }
    destruct (Z.leb_spec (2 ^ 1024) (q * 2 ^ e)) as [Hover|_].
    + exfalso. assert (2 ^ 66 < 2 ^ 1024) by (apply Z.pow_lt_mono_r; lia).
      assert (2 ^ 64 + 2 ^ 11 < 2 ^ 66) by (vm_compute; reflexivity). nia.
    + exists (q * 2 ^ e). split; [reflexivity|]. split.
      * exists q. reflexivity.
      * rewrite Z.abs_neq by nia. nia.
Qed.

Example parseInt_testnet : JS.parseInt "0x3e6" = JS.Num 998.
Proof. reflexivity. Qed.

Example parseInt_mainnet : JS.parseInt "0x1" = JS.Num 1.
Proof. reflexivity. Qed.

Example parseInt_nan : JS.parseInt "Testnet" = JS.NaN.
Proof. reflexivity. Qed.

Example BigInt_decimal : JS.BigInt_of_string "1761995511314" = Some 1761995511314.
Proof. reflexivity. Qed.

Example BigInt_rejects : JS.BigInt_of_string "12abc" = None.
Proof. reflexivity. Qed.

Example trim_blank : JS.trim "   " = EmptyString.
Proof. reflexivity. Qed.

Example lower_address : JS.toLowerCase "0xAbCdEF01" = "0xabcdef01".
Proof. reflexivity. Qed.

Example Number_2_53_plus_1 : JS.Number_of_bigint (2 ^ 53 + 1) = JS.Num (2 ^ 53).
Proof. reflexivity. Qed.

Example Number_2_53_plus_3 : JS.Number_of_bigint (2 ^ 53 + 3) = JS.Num (2 ^ 53 + 4).
Proof. reflexivity. Qed.

Example Number_uint64_max : JS.Number_of_bigint (2 ^ 64 - 1) = JS.Num (2 ^ 64).
Proof. reflexivity. Qed.

Example bigint_template : JS.string_of_bigint 1761995511314 = "1761995511314".
Proof. reflexivity. Qed.

(** ** The typed data of a link is fixed *)

Section TypedData.
Context {lib : Ethers} (w : World).

Let testnet : bool := negb (Index.env_is w "HYPERLIQUID_TESTNET" "false").



End TypedData.

(** ** What is sent, and where *)

Section Submission.
Context {lib : Ethers} (w : World).




End Submission.



(** ** Network calls are made once *)

Section Network.
Context {lib : Ethers} (w : World).








End Network.


(** ** The local recovery guard *)

Section Guard.
Context {lib : Ethers} (w : World).

(** [signLinkAction] returns a signature only after the signer and the
    verifier were called on the same typed data and the recovered address
    equals the wallet's, up to case. *)
Lemma signLinkAction_returns (a : Index.LinkAction) (wal : Wallet) (t : bool)
    (st st' : St) (sig : Signature) :
  Index.signLinkAction a wal t st = (Ok sig, st') ->
  let d := Index.domain_of (JS.parseInt (Index.signatureChainId a)) in
  let x := Index.value_of a in
  exists digest full,
    let sg := SigningKey_sign (privateKey wal) digest in
    TypedDataEncoder_hash d Index.types x = Ok digest
    /\ Signature_from sg = Ok full
    /\ sig = {| sig_r := sig_r full; sig_s := sig_s full; sig_v := sig_v full |}
    /\ recovers (address wal) d Index.types x sg
    /\ trace st' = trace st ++ [SignTypedData (address wal) d Index.types x;
                                VerifyTypedData d Index.types x sg].
Proof.
  unfold Index.signLinkAction. unfold_runtime. unfold_monad.
  cbn [fst snd trace ticks]. intros H.
  repeat (break_match_in H; cbn [fst snd trace ticks] in H); try discriminate.
  injection H as <- <-. lower_eq.
  exists a0, a1. cbv zeta.
  split; [reflexivity|]. split; [assumption|]. split; [reflexivity|].
  split; [exists a0, a2; auto|].
  cbn [trace]. now rewrite <- app_assoc.
Qed.

(** When the recovered address differs from the wallet's, [signLinkAction]
    throws the mismatch error. *)
Lemma signLinkAction_mismatch (a : Index.LinkAction) (wal : Wallet) (t : bool) (st : St)
    (digest recovered : string) (full : Signature) :
  let d := Index.domain_of (JS.parseInt (Index.signatureChainId a)) in
  let x := Index.value_of a in
  let sg := SigningKey_sign (privateKey wal) digest in
  TypedDataEncoder_hash d Index.types x = Ok digest ->
  Signature_from sg = Ok full ->
  recoverAddress digest sg = Ok recovered ->
  JS.toLowerCase recovered <> JS.toLowerCase (address wal) ->
  Index.signLinkAction a wal t st
  = (Throw (Error ("Local EIP-712 recovery mismatch. recovered=" +:+ recovered
                   +:+ " expected=" +:+ address wal)),
     {| ticks := ticks st;
        trace := trace st ++ [SignTypedData (address wal) d Index.types x;
                              VerifyTypedData d Index.types x sg] |}).
Proof.
  cbv zeta. intros Hh Hf Hr Hne.
  unfold Index.signLinkAction. unfold_runtime. unfold_monad.
  cbn [fst snd trace ticks]. rewrite Hh. cbn [fst snd trace ticks].
  rewrite Hf. cbn [fst snd trace ticks]. rewrite Hr.
  apply String.eqb_neq in Hne. rewrite Hne. cbn [negb].
  now rewrite <- app_assoc.
Qed.

(** On a library that has the round trip the guard never fires: once the
    typed data hashes and the signature parses, [signLinkAction] returns
    {r, s, v}. *)
Lemma guard_passes_on_round_trip (a : Index.LinkAction) (key addr : string) (t : bool)
    (st : St) (digest : string) (full : Signature) :
  round_trip ->
  computeAddress key = Ok addr ->
  TypedDataEncoder_hash (Index.domain_of (JS.parseInt (Index.signatureChainId a)))
    Index.types (Index.value_of a) = Ok digest ->
  Signature_from (SigningKey_sign key digest) = Ok full ->
  fst (Index.signLinkAction a {| privateKey := key; address := addr |} t st)
  = Ok {| sig_r := sig_r full; sig_s := sig_s full; sig_v := sig_v full |}.
Proof.
  intros Hrt Hk Hh Hf.
  unfold Index.signLinkAction. unfold_runtime. unfold_monad.
  cbn [fst snd trace ticks address privateKey].
  rewrite Hh. cbn [fst snd trace ticks]. rewrite Hf. cbn [fst snd trace ticks].
  rewrite (Hrt key addr digest Hk), String.eqb_refl. reflexivity.
Qed.

Ltac solve_guarded :=
  unfold guarded; cbn [posts before_post];
  repeat (constructor;
          [ eexists _, _, _, _, _; split; [find_in | split; [find_in |]];
            lower_eq; unfold recovers; eexists _, _;
            split; [eassumption | split; [eassumption | assumption]]
          | ]);
  constructor.

Lemma index_guarded : guarded (trace (snd (Index.main w St0))).
Proof. run_of (Index.main w St0); solve_guarded. Qed.

Lemma link_staking_guarded : guarded (trace (snd (LinkStaking.main w St0))).
Proof. run_of (LinkStaking.main w St0); solve_guarded. Qed.

Ltac solve_refuses :=
  unfold refuses; cbn [fst snd trace signers verifications posts];
  repeat first [apply List.Forall_nil | apply List.Forall_cons];
  intros digest recovered Hh Hr Hne;
  cbn [address privateKey] in *;
  same_answers; try lower_eq; try congruence;
  split; reflexivity.

Lemma index_refuses : refuses (Index.main w St0).
Proof. run_of (Index.main w St0); solve_refuses. Qed.

Lemma link_staking_refuses : refuses (LinkStaking.main w St0).
Proof. run_of (LinkStaking.main w St0); solve_refuses. Qed.

(** C3. After signing and before any submission the link scripts recover
    the address from the typed data and the signature and compare it,
    case-insensitively, with the wallet's address: [signLinkAction]
    returns {r, s, v} only when they agree; when they differ it throws
    "Local EIP-712 recovery mismatch. recovered=... expected=..."; and in
    every run of src/index.ts and of the finalizer script a request is
    posted only after a signature and its successful verification, while
    a failed verification ends the run with that error and no request. *)
Theorem local_recovery_guard :
  (forall a wal t st st' sig,
     Index.signLinkAction a wal t st = (Ok sig, st') ->
     let d := Index.domain_of (JS.parseInt (Index.signatureChainId a)) in
     let x := Index.value_of a in
     exists digest full,
       let sg := SigningKey_sign (privateKey wal) digest in
       TypedDataEncoder_hash d Index.types x = Ok digest
       /\ Signature_from sg = Ok full
       /\ sig = {| sig_r := sig_r full; sig_s := sig_s full; sig_v := sig_v full |}
       /\ recovers (address wal) d Index.types x sg
       /\ trace st' = trace st ++ [SignTypedData (address wal) d Index.types x;
                                   VerifyTypedData d Index.types x sg])
  /\ (forall a wal t st digest recovered full,
        let d := Index.domain_of (JS.parseInt (Index.signatureChainId a)) in
        let x := Index.value_of a in
        let sg := SigningKey_sign (privateKey wal) digest in
        TypedDataEncoder_hash d Index.types x = Ok digest ->
        Signature_from sg = Ok full ->
        recoverAddress digest sg = Ok recovered ->
        JS.toLowerCase recovered <> JS.toLowerCase (address wal) ->
        Index.signLinkAction a wal t st
        = (Throw (Error ("Local EIP-712 recovery mismatch. recovered=" +:+ recovered
                         +:+ " expected=" +:+ address wal)),
           {| ticks := ticks st;
              trace := trace st ++ [SignTypedData (address wal) d Index.types x;
                                    VerifyTypedData d Index.types x sg] |}))
  /\ guarded (trace (snd (Index.main w St0)))
  /\ refuses (Index.main w St0)
  /\ guarded (trace (snd (LinkStaking.main w St0)))
  /\ refuses (LinkStaking.main w St0).
Proof.
  split; [exact signLinkAction_returns|].
  split; [intros a wal t st digest recovered full; apply signLinkAction_mismatch|].
  auto using index_guarded, index_refuses, link_staking_guarded, link_staking_refuses.
Qed.

End Guard.

Lemma demo_round_trip : round_trip (lib := Demo.ethers).
Proof.
  intros key addr dg Hk. cbn in Hk |- *. unfold Demo.address_of_key in Hk.
  destruct (String.eqb key Demo.key1) eqn:E1.
  - apply String.eqb_eq in E1. subst key. injection Hk as <-.
    unfold Demo.recover. now rewrite String.eqb_refl.
  - destruct (String.eqb key Demo.key2) eqn:E2; [|discriminate].
    apply String.eqb_eq in E2. subst key. injection Hk as <-.
    unfold Demo.recover.
    replace (String.eqb (Demo.sign Demo.key2 dg) (Demo.sign Demo.key1 dg)) with false
      by (symmetry; vm_compute; reflexivity).
    now rewrite String.eqb_refl.
Qed.

(** A run on the library whose recovery answers another address: the
    guard throws and the trace stops at the verification. *)
Lemma local_recovery_guard_witness :
  let wal := {| privateKey := Demo.key1; address := Demo.addr1 |} in
  let a := Index.action_of true false 1761995511317 (JS.toLowerCase Demo.addr2) in
  exists st,
    Index.signLinkAction (lib := Demo.faulty) a wal true St0
    = (Throw (Error ("Local EIP-712 recovery mismatch. recovered=" +:+ Demo.addr2
                     +:+ " expected=" +:+ Demo.addr1)), st)
    /\ posts (trace st) = [].
Proof.
  cbv zeta. eexists. split.
  - apply (proj1 (proj2 (local_recovery_guard (lib := Demo.faulty) (Demo.world []))))
      with (full := Demo.parts); [reflexivity | reflexivity | reflexivity |].
    vm_compute. discriminate.
  - reflexivity.
Defined.

(** ** What [signLinkAction] reads *)

Section Determinism.
Context {lib : Ethers}.

(** What [signLinkAction] itself adds to the answers of the library:
    nothing.  Two calls with the same wallet on actions that give the
    same domain and the same value ask the library the same questions,
    so neither the state in which the call is made (the trace so far,
    the clock readings made), nor the testnet argument, nor the fields
    of the action outside the value reach the result.  That the library
    answers the same question twice alike (deterministic ECDSA nonces)
    is a property of ethers; here it is part of the interface [Ethers],
    whose members are functions, and is not proved. *)
Lemma sign_link_action_reads_only_typed_data (a1 a2 : Index.LinkAction) (wal : Wallet)
    (t1 t2 : bool) (st1 st2 : St) :
  Index.domain_of (JS.parseInt (Index.signatureChainId a1))
  = Index.domain_of (JS.parseInt (Index.signatureChainId a2)) ->
  Index.value_of a1 = Index.value_of a2 ->
  TypedDataEncoder_hash (Index.domain_of (JS.parseInt (Index.signatureChainId a1)))
    Index.types (Index.value_of a1)
  = TypedDataEncoder_hash (Index.domain_of (JS.parseInt (Index.signatureChainId a2)))
      Index.types (Index.value_of a2)
  /\ fst (Index.signLinkAction a1 wal t1 st1) = fst (Index.signLinkAction a2 wal t2 st2).
Proof.
  intros Hd Hx. split; [now rewrite Hd, Hx|].
  unfold Index.signLinkAction. unfold_runtime. unfold_monad.
  rewrite Hd, Hx. cbn [fst snd trace ticks].
  destruct (TypedDataEncoder_hash _ _ _) as [digest|e]; [|reflexivity].
  cbn [fst snd trace ticks].
  destruct (Signature_from _) as [full|e]; [|reflexivity].
  destruct (recoverAddress _ _) as [recovered|e]; [|reflexivity].
  now destruct (negb _).
Qed.

(** With the nonce given, the whole sign-and-submit flow is a function of
    its arguments and of the answer of the service: it reads neither the
    clock nor the environment. *)
Lemma sign_and_submit_ignores_clock (w1 w2 : World) (key peer : string)
    (fin t : bool) (n : Z) (st : St) :
  http w1 = http w2 ->
  JS.truthy_bigint n = true ->
  Index.signAndSubmitLink w1 key peer fin t (Some n) st
  = Index.signAndSubmitLink w2 key peer fin t (Some n) st.
Proof.
  intros Hhttp Hn.
  unfold Index.signAndSubmitLink, Index.submitLinkAction, Index.signLinkAction.
  unfold_runtime. unfold_monad. rewrite Hn, Hhttp. reflexivity.
Qed.

End Determinism.

(** ** Runs without a NONCE *)

Section ClockNonce.
Context {lib : Ethers} (w : World).

Ltac no_nonce_cases H :=
  unfold no_nonce in H;
  destruct (getenv w "NONCE") as [nonceArg|] eqn:Hnonce;
  [destruct (JS.truthy_string nonceArg) eqn:Hgiven; [discriminate H|]|].

(** The outcome of [signLinkAction] from the empty state, by the answers
    of the library known in the context. *)
Ltac sign_outcome H :=
  unfold Index.signLinkAction in H; unfold_runtime; unfold_monad;
  cbn [fst snd trace ticks address privateKey] in *;
  repeat (rewrite_known H; cbn [fst snd trace ticks address privateKey] in H).

Ltac solve_links :=
  unfold links_with_nonce; cbn [fst snd trace];
  split; [find_in | split; [find_in |]];
  intros sig Hsig; sign_outcome Hsig;
  first
    [ discriminate Hsig
    | cbn [negb] in Hsig; injection Hsig as <-;
      split; [reflexivity |];
      intros resp Hresp; first [reflexivity | congruence] ].

Lemma index_links_with_clock (fin : bool) (key a addr : string) :
  Index.env_is w "IS_FINALIZE" "true" = fin ->
  no_nonce w = true ->
  getenv w (if fin then "STAKING_PRIVATE_KEY" else "TRADING_PRIVATE_KEY") = Some key ->
  Index.blank key = false ->
  getenv w (if fin then "STAKING_USER_ADDRESS" else "TRADING_USER_ADDRESS") = Some a ->
  Index.blank a = false ->
  computeAddress key = Ok addr ->
  links_with_nonce w fin key addr (JS.toLowerCase a) (clock w 1) (Index.main w St0).
Proof.
  intros Hfin Hn Hkey Hkb Ha Hab Haddr.
  no_nonce_cases Hn; destruct fin.
  all: run_of (Index.main w St0).
  all: solve_links.
Qed.

Lemma link_staking_links_with_clock (key a addr : string) :
  no_nonce w = true ->
  getenv w "STAKING_PRIVATE_KEY" = Some key ->
  Index.blank key = false ->
  getenv w "STAKING_USER_ADDRESS" = Some a ->
  Index.blank a = false ->
  computeAddress key = Ok addr ->
  links_with_nonce w true key addr (JS.toLowerCase a) (clock w 1) (LinkStaking.main w St0).
Proof.
  intros Hn Hkey Hkb Ha Hab Haddr.
  no_nonce_cases Hn.
  all: run_of (LinkStaking.main w St0).
  all: solve_links.
Qed.

(** C1, as the code has it. A Finalizer run (IS_FINALIZE is "true" for
    src/index.ts; always for the finalizer script) in which NONCE is unset
    or empty does not stop for want of a nonce: with a usable staking key
    it takes the reading of the clock made by [Date.now()] as the nonce,
    prints it, hands the action with isFinalize = true and that nonce to
    the signer and, when signing and local verification succeed, submits
    it. *)
Theorem finalizer_without_nonce_uses_clock (key a addr : string) :
  no_nonce w = true ->
  getenv w "STAKING_PRIVATE_KEY" = Some key ->
  Index.blank key = false ->
  getenv w "STAKING_USER_ADDRESS" = Some a ->
  Index.blank a = false ->
  computeAddress key = Ok addr ->
  (Index.env_is w "IS_FINALIZE" "true" = true ->
   links_with_nonce w true key addr (JS.toLowerCase a) (clock w 1) (Index.main w St0))
  /\ links_with_nonce w true key addr (JS.toLowerCase a) (clock w 1)
       (LinkStaking.main w St0).
Proof.
  intros Hn Hkey Hkb Ha Hab Haddr. split.
  - intros Hfin. now apply (index_links_with_clock true key a addr).
  - now apply link_staking_links_with_clock.
Qed.

(** C7. An Initiator run of src/index.ts (IS_FINALIZE is not "true") in
    which NONCE is unset or empty, with a usable trading key, builds the
    action with isFinalize = false, nonce = the reading of the clock made
    by [Date.now()] (in milliseconds) and user = the configured staking
    address in lower case, hands it to the signer, submits it when signing
    and local verification succeed, and prints "Nonce: <nonce>". *)
Theorem initiator_uses_clock_nonce (key a addr : string) :
  Index.env_is w "IS_FINALIZE" "true" = false ->
  no_nonce w = true ->
  getenv w "TRADING_PRIVATE_KEY" = Some key ->
  Index.blank key = false ->
  getenv w "TRADING_USER_ADDRESS" = Some a ->
  Index.blank a = false ->
  computeAddress key = Ok addr ->
  let n := clock w 1 in
  let testnet := negb (Index.env_is w "HYPERLIQUID_TESTNET" "false") in
  Index.action_of testnet false n (JS.toLowerCase a)
  = {| Index.hyperliquidChain := if testnet then "Testnet" else "Mainnet";
       Index.isFinalize := false;
       Index.nonce := n;
       Index.signatureChainId := if testnet then "0x3e6" else "0x1";
       Index.type := "linkStakingUser";
       Index.user := JS.toLowerCase a |}
  /\ links_with_nonce w false key addr (JS.toLowerCase a) n (Index.main w St0).
Proof.
  intros Hfin Hn Hkey Hkb Ha Hab Haddr. cbv zeta. split; [reflexivity|].
  now apply (index_links_with_clock false key a addr).
Qed.

End ClockNonce.

(** C1, as stated, fails: a Finalizer run of src/index.ts without NONCE,
    on the small library and world, succeeds; the nonce it signs and
    submits is the second reading of its own clock. *)
Lemma finalizer_without_nonce_submits :
  let w := Demo.world Demo.finalizer_env in
  let r := Index.main (lib := Demo.ethers) w St0 in
  Index.env_is w "IS_FINALIZE" "true" = true
  /\ getenv w "NONCE" = None
  /\ clock w 1 = 1761995511317
  /\ fst r = Ok tt
  /\ signed_nonces (trace (snd r))
     = [JS.VBigInt 1761995511317; JS.VBigInt 1761995511317]
  /\ map (fun req => JS.get "nonce" (JS.get "action" (body req))) (posts (trace (snd r)))
     = [JS.VNumber (JS.Num 1761995511317)].
Proof. vm_compute. repeat split. Qed.

Lemma finalizer_without_nonce_uses_clock_witness :
  let w := Demo.world Demo.finalizer_env in
  links_with_nonce (lib := Demo.ethers) w true Demo.key2 Demo.addr2
    (JS.toLowerCase Demo.addr1) 1761995511317 (Index.main (lib := Demo.ethers) w St0).
Proof.
  cbv zeta.
  apply (proj1 (finalizer_without_nonce_uses_clock (lib := Demo.ethers)
                  (Demo.world Demo.finalizer_env) Demo.key2 Demo.addr1 Demo.addr2
                  eq_refl eq_refl eq_refl eq_refl eq_refl eq_refl)).
  reflexivity.
Defined.

Lemma initiator_uses_clock_nonce_witness :
  let w := Demo.world Demo.initiator_env in
  links_with_nonce (lib := Demo.ethers) w false Demo.key1 Demo.addr1
    (JS.toLowerCase Demo.addr2) 1761995511317 (Index.main (lib := Demo.ethers) w St0).
Proof.
  cbv zeta.
  apply (proj2 (initiator_uses_clock_nonce (lib := Demo.ethers)
                  (Demo.world Demo.initiator_env) Demo.key1 Demo.addr2 Demo.addr1
                  eq_refl eq_refl eq_refl eq_refl eq_refl eq_refl eq_refl)).
Defined.


(** ** Configuration is checked first, where it is checked at the start *)

Section Configuration.
Context {lib : Ethers} (w : World).

Ltac missing_cases H :=
  unfold missing in H;
  match type of H with
  | context [getenv w ?name] =>
      let v := fresh "v" in
      destruct (getenv w name) as [v|] eqn:?
  end.

Ltac solve_quiet :=
  unfold fails_quietly; cbn [fst snd trace];
  split; [eexists; split; reflexivity | reflexivity].

Lemma index_config (name : string) :
  In name (if Index.env_is w "IS_FINALIZE" "true"
           then ["STAKING_PRIVATE_KEY"; "STAKING_USER_ADDRESS"]
           else ["TRADING_PRIVATE_KEY"; "TRADING_USER_ADDRESS"]) ->
  missing w name = true ->
  fails_quietly (Index.main w St0).
Proof.
  intros Hin Hm.
  destruct (Index.env_is w "IS_FINALIZE" "true") eqn:Hfin;
    cbn [In] in Hin; destruct Hin as [<-|[<-|[]]]; missing_cases Hm.
  all: run_of (Index.main w St0); solve_quiet.
Qed.

Lemma link_staking_config (name : string) :
  In name ["STAKING_PRIVATE_KEY"; "STAKING_USER_ADDRESS"] ->
  missing w name = true ->
  fails_quietly (LinkStaking.main w St0).
Proof.
  intros Hin Hm. cbn [In] in Hin. destruct Hin as [<-|[<-|[]]]; missing_cases Hm.
  all: run_of (LinkStaking.main w St0); solve_quiet.
Qed.

Lemma send_tx_config (name : string) :
  In name ["ETH_RPC_URL"; "CHAIN_ID"; "PRIVATE_KEY"; "TO_ADDRESS"; "AMOUNT_ETH"] ->
  missing w name = true ->
  fails_quietly (SendTx.main w St0).
Proof.
  intros Hin Hm. cbn [In] in Hin.
  destruct Hin as [<-|[<-|[<-|[<-|[<-|[]]]]]]; missing_cases Hm.
  all: run_of (SendTx.main w St0); solve_quiet.
Qed.

Lemma sign_message_config (name : string) :
  In name ["ETH_RPC_URL"; "PRIVATE_KEY"; "TARGET_API_URL"] ->
  missing w name = true ->
  fails_quietly (SignMessage.main w St0).
Proof.
  intros Hin Hm. cbn [In] in Hin.
  destruct Hin as [<-|[<-|[<-|[]]]]; missing_cases Hm.
  all: run_of (SignMessage.main w St0); solve_quiet.
Qed.

Lemma sign_message_typed_config :
  JS.toLowerCase (SignMessage.getenv_or w "SIGN_MODE" "personal") = "typed" ->
  missing w "TYPED_DATA_JSON" = true ->
  fails_unsigned (SignMessage.main w St0).
Proof.
  intros Hmode Hm. missing_cases Hm.
  all: run_of (SignMessage.main w St0).
  all: try (rewrite Hmode in *; discriminate).
  all: unfold fails_unsigned; cbn [fst snd trace];
    (split; [eexists; reflexivity | split; reflexivity]).
Qed.

(** C8, as the code has it. A run in which a variable read by
    [getenvStrict] at the start of the script is unset, empty or blank
    fails with a configuration error before any key is loaded, anything
    is signed or any network request (RPC included) is made: the key and
    the peer address of the role for src/index.ts and the finalizer
    script; ETH_RPC_URL, CHAIN_ID, PRIVATE_KEY, TO_ADDRESS and AMOUNT_ETH
    for the transfer script; ETH_RPC_URL, PRIVATE_KEY and TARGET_API_URL
    for the API script.  TYPED_DATA_JSON of the API script is read only in
    typed mode, after the block-number query and the construction of the
    wallet: a run in which it is missing fails without having signed or
    posted anything. *)
Theorem config_errors_before_work :
  (forall name,
     In name (if Index.env_is w "IS_FINALIZE" "true"
              then ["STAKING_PRIVATE_KEY"; "STAKING_USER_ADDRESS"]
              else ["TRADING_PRIVATE_KEY"; "TRADING_USER_ADDRESS"]) ->
     missing w name = true ->
     fails_quietly (Index.main w St0))
  /\ (forall name,
        In name ["STAKING_PRIVATE_KEY"; "STAKING_USER_ADDRESS"] ->
        missing w name = true ->
        fails_quietly (LinkStaking.main w St0))
  /\ (forall name,
        In name ["ETH_RPC_URL"; "CHAIN_ID"; "PRIVATE_KEY"; "TO_ADDRESS"; "AMOUNT_ETH"] ->
        missing w name = true ->
        fails_quietly (SendTx.main w St0))
  /\ (forall name,
        In name ["ETH_RPC_URL"; "PRIVATE_KEY"; "TARGET_API_URL"] ->
        missing w name = true ->
        fails_quietly (SignMessage.main w St0))
  /\ (JS.toLowerCase (SignMessage.getenv_or w "SIGN_MODE" "personal") = "typed" ->
      missing w "TYPED_DATA_JSON" = true ->
      fails_unsigned (SignMessage.main w St0)).
Proof.
  split; [exact index_config|].
  split; [exact link_staking_config|].
  split; [exact send_tx_config|].
  split; [exact sign_message_config|].
  exact sign_message_typed_config.
Qed.

End Configuration.

(** C8, as stated, fails: in typed mode without TYPED_DATA_JSON the API
    script queries the block number and loads the key, and only then
    fails on the missing variable. *)
Lemma typed_data_checked_after_rpc :
  let w := Demo.world (("SIGN_MODE", "typed") :: Demo.api_env) in
  let r := SignMessage.main (lib := Demo.ethers) w St0 in
  missing w "TYPED_DATA_JSON" = true
  /\ fst r = Throw (Error "Missing required env var: TYPED_DATA_JSON")
  /\ quiet (trace (snd r)) = false
  /\ List.filter is_work (trace (snd r))
     = [Rpc "https://rpc.example.org" GetBlockNumber; NewWallet Demo.key1].
Proof. vm_compute. repeat split. Qed.

Lemma config_errors_before_work_witness :
  fails_quietly
    (Index.main (lib := Demo.ethers)
       (Demo.world [("IS_FINALIZE", "true"); ("STAKING_PRIVATE_KEY", Demo.key2);
                    ("STAKING_USER_ADDRESS", "   ")])
       St0)
  /\ fails_unsigned
       (SignMessage.main (lib := Demo.ethers)
          (Demo.world (("SIGN_MODE", "Typed") :: Demo.api_env)) St0).
Proof.
  split.
  - apply (proj1 (config_errors_before_work (lib := Demo.ethers)
                   (Demo.world [("IS_FINALIZE", "true"); ("STAKING_PRIVATE_KEY", Demo.key2);
                                ("STAKING_USER_ADDRESS", "   ")])))
      with (name := "STAKING_USER_ADDRESS").
    + vm_compute. auto.
    + reflexivity.
  - apply (proj2 (proj2 (proj2 (proj2
             (config_errors_before_work (lib := Demo.ethers)
                (Demo.world (("SIGN_MODE", "Typed") :: Demo.api_env))))))).
    + reflexivity.
    + reflexivity.
Defined.

(** ** The nonce that is signed and the nonce that is sent *)

Section Nonce.
Context {lib : Ethers} (w : World).

Ltac solve_nonces :=
  unfold nonces_agree; cbn [posts before_post];
  repeat first
    [ apply List.Forall_nil
    | apply List.Forall_cons;
      [eexists; split; [cbn [signed_nonces typed_data map]; find_in | split; reflexivity]|] ].

Lemma index_nonces_agree : nonces_agree (trace (snd (Index.main w St0))).
Proof. run_of (Index.main w St0); solve_nonces. Qed.

Lemma link_staking_nonces_agree : nonces_agree (trace (snd (LinkStaking.main w St0))).
Proof. run_of (LinkStaking.main w St0); solve_nonces. Qed.

End Nonce.

Lemma Number_of_bigint_inexact : JS.Number_of_bigint (2 ^ 53 + 1) <> JS.Num (2 ^ 53 + 1).
Proof. vm_compute. discriminate. Qed.

(** C5. The value handed to the signer holds the nonce as a bigint, and
    every request posted by the link scripts carries, as action.nonce and
    as nonce, the result of [Number] on that bigint.  [Number] is exact
    on every nonce below 2^53; it is not on every uint64 above: a run
    with NONCE = 9007199254740993 (2^53 + 1) signs that nonce and submits
    9007199254740992. *)
Theorem nonce_signed_as_bigint_sent_as_number :
  (forall (lib : Ethers) (w : World),
     nonces_agree (trace (snd (Index.main w St0)))
     /\ nonces_agree (trace (snd (LinkStaking.main w St0))))
  /\ (forall n : Z, 0 <= n < 2 ^ 53 -> JS.Number_of_bigint n = JS.Num n)
  /\ (exists n : Z,
        2 ^ 53 <= n < 2 ^ 64
        /\ JS.Number_of_bigint n <> JS.Num n
        /\ let w := Demo.world (("NONCE", JS.string_of_bigint n) :: Demo.finalizer_env) in
           let r := Index.main (lib := Demo.ethers) w St0 in
           fst r = Ok tt
           /\ signed_nonces (trace (snd r)) = [JS.VBigInt n; JS.VBigInt n]
           /\ map (fun req => (JS.get "nonce" (JS.get "action" (body req)),
                               JS.get "nonce" (body req)))
                (posts (trace (snd r)))
              = [(JS.VNumber (JS.Num (n - 1)), JS.VNumber (JS.Num (n - 1)))]).
Proof.
  split; [|split].
  - intros lib w. split; [apply index_nonces_agree | apply link_staking_nonces_agree].
  - intros n Hn. apply Number_of_bigint_exact. lia.
  - exists (2 ^ 53 + 1). split; [lia|]. split; [exact Number_of_bigint_inexact|].
    vm_compute. repeat split.
Qed.

Lemma nonce_signed_as_bigint_sent_as_number_witness :
  JS.Number_of_bigint 1761995511314 = JS.Num 1761995511314.
Proof.
  apply (proj1 (proj2 nonce_signed_as_bigint_sent_as_number)). lia.
Defined.


(** * Further properties *)

(** ** Reading the configuration *)

Lemma trimStart_empty (s : string) : JS.trimStart s = EmptyString <-> visible s = false.
Proof.
  induction s as [|c s IH]; cbn [JS.trimStart visible]; [tauto|].
  destruct (JS.isWhiteSpace c); cbn [negb orb]; [exact IH|].
  split; discriminate.
Qed.

Lemma visible_trimStart (s : string) : visible (JS.trimStart s) = visible s.
Proof.
  induction s as [|c s IH]; cbn [JS.trimStart visible]; [reflexivity|].
  destruct (JS.isWhiteSpace c) eqn:Hc; cbn [negb orb]; [exact IH|].
  cbn [visible]. now rewrite Hc.
Qed.

Lemma visible_rev_string (s acc : string) :
  visible (JS.rev_string s acc) = visible s || visible acc.
Proof.
  revert acc. induction s as [|c s IH]; intros acc; cbn [JS.rev_string visible].
  - reflexivity.
  - rewrite IH. cbn [visible]. now destruct (JS.isWhiteSpace c), (visible s), (visible acc).
Qed.

Lemma rev_string_empty (s acc : string) :
  JS.rev_string s acc = EmptyString <-> s = EmptyString /\ acc = EmptyString.
Proof.
  revert acc. induction s as [|c s IH]; intros acc; cbn [JS.rev_string].
  - tauto.
  - rewrite IH. split; [intros [_ H]; discriminate | intros [H _]; discriminate].
Qed.

Lemma trim_empty (s : string) : JS.trim s = EmptyString <-> visible s = false.
Proof.
  unfold JS.trim, JS.trimEnd.
  rewrite rev_string_empty, trimStart_empty, visible_rev_string, visible_trimStart.
  cbn [visible]. rewrite orb_false_r. tauto.
Qed.

Lemma blank_visible (v : string) : Index.blank v = negb (visible v).
Proof.
  unfold Index.blank.
  destruct (visible v) eqn:Hv; cbn [negb].
  - destruct v as [|c v]; [discriminate|]. cbn [JS.truthy_string negb orb].
    apply String.eqb_neq. intros H. apply trim_empty in H. congruence.
  - apply trim_empty in Hv. rewrite Hv. now destruct (JS.truthy_string v).
Qed.

Section Configured.
Context {lib : Ethers} (w : World).

(** X1. [getenvStrict] accepts a variable exactly when it is set and holds
    a character that is not white space; it then returns the value as it
    is, untrimmed, and otherwise throws "Missing required env var: NAME";
    in both cases the state is left as it was. *)
Theorem getenvStrict_accepts_visible (name : string) (st : St) :
  Index.getenvStrict w name st
  = (match getenv w name with
     | Some v =>
         if visible v then Ok v
         else Throw (Error ("Missing required env var: " +:+ name))
     | None => Throw (Error ("Missing required env var: " +:+ name))
     end, st).
Proof.
  unfold Index.getenvStrict. destruct (getenv w name) as [v|]; [|reflexivity].
  rewrite blank_visible. now destruct (visible v).
Qed.

End Configured.

(** ** Runs with a NONCE *)

Section GivenNonce.
Context {lib : Ethers} (w : World).

Ltac nonce_sign_outcome H :=
  unfold Index.signLinkAction in H; unfold_runtime; unfold_monad;
  cbn [fst snd trace ticks address privateKey] in *;
  repeat (rewrite_known H; cbn [fst snd trace ticks address privateKey] in H).

(** [run_eq r Hr]: the same as [run_of], on a run already named [r] by
    the equation [Hr]. *)
Ltac run_eq r Hr :=
  unfold_link; unfold_scripts; unfold_runtime; unfold_monad;
  cbn [fst snd trace ticks app] in Hr;
  repeat (first [rewrite_known Hr | break_match_in Hr];
          cbn [fst snd trace ticks app] in Hr);
  subst r; cbn [fst snd trace ticks].

Ltac solve_nonce_links :=
  unfold links_with_nonce; cbn [fst snd trace];
  split; [find_in | split; [find_in |]];
  intros sig Hsig; nonce_sign_outcome Hsig;
  first
    [ discriminate Hsig
    | cbn [negb] in Hsig; injection Hsig as <-;
      split; [reflexivity |];
      intros resp Hresp; first [reflexivity | congruence] ].

(** X2. A run of src/index.ts in which NONCE converts to a bigint other
    than 0 links with that nonce, whatever the role; when NONCE converts
    to 0 the nonce is falsy for [nonce || BigInt(Date.now())] and the run
    links with the reading of the clock instead. *)
Theorem index_links_with_given_nonce (fin : bool) (key a addr s : string) (n : Z) :
  Index.env_is w "IS_FINALIZE" "true" = fin ->
  getenv w "NONCE" = Some s ->
  JS.truthy_string s = true ->
  JS.BigInt_of_string s = Some n ->
  getenv w (if fin then "STAKING_PRIVATE_KEY" else "TRADING_PRIVATE_KEY") = Some key ->
  Index.blank key = false ->
  getenv w (if fin then "STAKING_USER_ADDRESS" else "TRADING_USER_ADDRESS") = Some a ->
  Index.blank a = false ->
  computeAddress key = Ok addr ->
  links_with_nonce w fin key addr (JS.toLowerCase a)
    (if n =? 0 then clock w 1 else n) (Index.main w St0).
Proof.
  intros Hfin Hs Ht Hn Hkey Hkb Ha Hab Haddr.
  assert (Hz : JS.truthy_bigint n = negb (n =? 0)) by reflexivity.
  destruct (n =? 0); cbn [negb] in Hz; destruct fin.
  all: run_of (Index.main w St0).
  all: solve_nonce_links.
Qed.

(** X3. The finalizer script uses a supplied NONCE as it converts, 0
    included: [nonceArg ? BigInt(nonceArg) : BigInt(Date.now())] tests
    the string, not the bigint. *)
Theorem link_staking_links_with_given_nonce (key a addr s : string) (n : Z) :
  getenv w "NONCE" = Some s ->
  JS.truthy_string s = true ->
  JS.BigInt_of_string s = Some n ->
  getenv w "STAKING_PRIVATE_KEY" = Some key ->
  Index.blank key = false ->
  getenv w "STAKING_USER_ADDRESS" = Some a ->
  Index.blank a = false ->
  computeAddress key = Ok addr ->
  links_with_nonce w true key addr (JS.toLowerCase a) n (LinkStaking.main w St0).
Proof.
  intros Hs Ht Hn Hkey Hkb Ha Hab Haddr.
  run_of (LinkStaking.main w St0).
  all: solve_nonce_links.
Qed.

(** X4. A NONCE that is not a numeral stops src/index.ts at once: the
    SyntaxError of [BigInt] is thrown after the timestamp line, before
    any variable of the role is read, any key loaded or anything signed
    or sent. *)
Theorem index_rejects_malformed_nonce (s : string) :
  getenv w "NONCE" = Some s ->
  JS.truthy_string s = true ->
  JS.BigInt_of_string s = None ->
  Index.main w St0
  = (Throw (SyntaxError ("Cannot convert " +:+ s +:+ " to a BigInt")),
     {| ticks := 1;
        trace := [ConsoleLog [JS.VString ("Timestamp: "
                                          +:+ Date_toISOString (clock w 0))]] |}).
Proof.
  intros Hs Ht Hn. unfold_link. unfold_runtime. unfold_monad.
  cbn [fst snd trace ticks app]. rewrite Hs, Ht, Hn. reflexivity.
Qed.

(** X5. In the finalizer script the same NONCE is converted only after the
    configuration was read and the key loaded: with a usable key the run
    ends with the SyntaxError, the key loaded and nothing signed or sent;
    in every case nothing is signed or sent. *)
Theorem link_staking_rejects_malformed_nonce (s : string) :
  getenv w "NONCE" = Some s ->
  JS.truthy_string s = true ->
  JS.BigInt_of_string s = None ->
  fails_unsigned (LinkStaking.main w St0)
  /\ (forall key a addr,
        getenv w "STAKING_PRIVATE_KEY" = Some key ->
        Index.blank key = false ->
        getenv w "STAKING_USER_ADDRESS" = Some a ->
        Index.blank a = false ->
        computeAddress key = Ok addr ->
        fst (LinkStaking.main w St0)
        = Throw (SyntaxError ("Cannot convert " +:+ s +:+ " to a BigInt"))
        /\ List.filter is_work (trace (snd (LinkStaking.main w St0))) = [NewWallet key]).
Proof.
  intros Hs Ht Hn. split.
  - run_of (LinkStaking.main w St0).
    all: unfold fails_unsigned; cbn [fst snd trace];
      (split; [eexists; reflexivity | split; reflexivity]).
  - intros key a addr Hkey Hkb Ha Hab Haddr.
    run_of (LinkStaking.main w St0). split; reflexivity.
Qed.

(** X6. For the Finalizer role the two scripts sign and send the same
    things: unless NONCE converts to 0, a run of src/index.ts with
    IS_FINALIZE = "true" and a run of the finalizer script in the same
    world hand the same typed data to the signer and the verifier and
    post the same requests. *)
Theorem finalizer_paths_agree :
  Index.env_is w "IS_FINALIZE" "true" = true ->
  nonce_is_zero w = false ->
  typed_data (trace (snd (Index.main w St0)))
  = typed_data (trace (snd (LinkStaking.main w St0)))
  /\ posts (trace (snd (Index.main w St0)))
     = posts (trace (snd (LinkStaking.main w St0))).
Proof.
  intros Hfin Hz. unfold nonce_is_zero in Hz.
  remember (LinkStaking.main w St0) as r2 eqn:Hr2.
  run_of (Index.main w St0).
  all: repeat match goal with
              | H : JS.truthy_bigint ?z = _ |- _ =>
                  unfold JS.truthy_bigint in H;
                  destruct (z =? 0) eqn:?; cbn [negb] in H; try discriminate H; clear H
              end.
  all: try (cbn [andb] in Hz; discriminate Hz).
  all: run_eq r2 Hr2.
  all: split; reflexivity.
Qed.

End GivenNonce.

(** ** How a script ends *)

Section Ending.
Context {lib : Ethers} (w : World).

Ltac solve_exit :=
  unfold exits_on_error; cbn [fst snd trace];
  first [reflexivity | eexists; split; reflexivity].

(** X7. Each of the four scripts makes the process exit exactly when its
    [main] throws: a run that returns prints nothing on the error stream
    and does not call [process.exit]; a run that throws ends with the one
    line "Error:" of its handler followed by the exit with code 1, and
    has no other such line or exit before. *)
Theorem scripts_exit_on_error :
  exits_on_error report (Index.script w)
  /\ exits_on_error report (LinkStaking.script w)
  /\ exits_on_error report (SignMessage.script w)
  /\ exits_on_error SendTx.reason (SendTx.script w).
Proof.
  split; [|split; [|split]].
  - run_of (Index.script w); solve_exit.
  - run_of (LinkStaking.script w); solve_exit.
  - run_of (SignMessage.script w); solve_exit.
  - run_of (SendTx.script w); solve_exit.
Qed.

Ltac solve_reports :=
  unfold reports_failure; cbn [fst snd trace posts after_post];
  repeat first
    [ apply List.Forall_nil
    | apply List.Forall_cons;
      [ cbv beta;
        repeat match goal with
               | H : http _ _ = _ |- _ => rewrite H
               end;
        first
          [ exact I
          | match goal with
            | |- context [AxiosError ?f] => destruct f as [m|m resp|m]
            end;
            cbn [report response_of message_of];
            repeat match goal with
                   | |- context [if ?b then _ else _] => destruct b
                   end;
            reflexivity ]
      | ] ].

(** X8. When the request of a script fails, the line of the handler
    carries the body of the answer of the service if there is one and it
    is truthy, else the message of the failure; it is the only thing
    that follows the request, with the exit. *)
Theorem failed_request_is_reported :
  reports_failure w (Index.script w)
  /\ reports_failure w (LinkStaking.script w)
  /\ reports_failure w (SignMessage.script w).
Proof.
  split; [|split].
  - run_of (Index.script w); solve_reports.
  - run_of (LinkStaking.script w); solve_reports.
  - run_of (SignMessage.script w); solve_reports.
Qed.

(** X9. [signAndSubmitLink] signs the peer address in lower case and sends
    it as it was given: in a run for the peer [u] every value handed to
    the signer and the verifier has user = u in lower case, and every
    request has action.user = u.  What is sent is what was signed only
    for a caller that passes a lower-case address, as [main] does. *)
Theorem signed_user_is_lowered_sent_user_is_given
    (key u : string) (fin t : bool) (nonce : option Z) :
  let r := Index.signAndSubmitLink w key u fin t nonce St0 in
  Forall (fun '(_, _, x) => JS.get "user" x = JS.VString (JS.toLowerCase u))
    (typed_data (trace (snd r)))
  /\ Forall (fun req => JS.get "user" (JS.get "action" (body req)) = JS.VString u)
       (posts (trace (snd r))).
Proof.
  cbv zeta.
  run_of (Index.signAndSubmitLink w key u fin t nonce St0).
  all: cbn [typed_data posts]; split.
  all: repeat first [apply List.Forall_nil | apply List.Forall_cons; [reflexivity|]].
Qed.

(** X10. On a library that has the round trip the guard of
    [signLinkAction] is never what stops it: for the wallet of a key at
    its own address, the call returns {r, s, v} as soon as the typed data
    hashes and the signature parses, and otherwise throws what the
    library threw. *)
Theorem guard_is_silent_on_round_trip (a : Index.LinkAction) (key addr : string)
    (t : bool) (st : St) :
  round_trip ->
  computeAddress key = Ok addr ->
  fst (Index.signLinkAction a {| privateKey := key; address := addr |} t st)
  = match TypedDataEncoder_hash
            (Index.domain_of (JS.parseInt (Index.signatureChainId a)))
            Index.types (Index.value_of a) with
    | Throw e => Throw e
    | Ok digest =>
        match Signature_from (SigningKey_sign key digest) with
        | Throw e => Throw e
        | Ok full =>
            Ok {| sig_r := sig_r full; sig_s := sig_s full; sig_v := sig_v full |}
        end
    end.
Proof.
  intros Hrt Hk.
  unfold Index.signLinkAction. unfold_runtime. unfold_monad.
  cbn [fst snd trace ticks address privateKey].
  destruct (TypedDataEncoder_hash _ _ _) as [digest|e]; [|reflexivity].
  cbn [fst snd trace ticks].
  destruct (Signature_from _) as [full|e]; [|reflexivity].
  cbn [fst snd trace ticks].
  now rewrite (Hrt key addr digest Hk), String.eqb_refl.
Qed.

End Ending.
(** ** The transfer script *)

Lemma gas_margin (g : Z) :
  0 <= g -> g <= Z.quot (g * 11) 10 /\ 10 * Z.quot (g * 11) 10 <= 11 * g.
Proof.
  intros Hg. rewrite Z.quot_div_nonneg by lia.
  pose proof (Z.mul_div_le (g * 11) 10 ltac:(lia)).
  assert (g * 10 / 10 <= g * 11 / 10) by (apply Z.div_le_mono; lia).
  rewrite Z.div_mul in * by lia. lia.
Qed.

Section TransferRuns.
Context {lib : Ethers} (w : World).

Ltac each_call t :=
  repeat first
    [ apply List.Forall_nil
    | apply List.Forall_cons; [first [exact I | t] |] ].

(** X11. The transfer script sends at most one transaction, and only the
    one its environment describes: to TO_ADDRESS, of AMOUNT_ETH in wei,
    on CHAIN_ID, of type 2 with the two fees of the environment (2 and
    60 gwei when absent), signed by the wallet of PRIVATE_KEY, after the
    endpoint ETH_RPC_URL answered the block number and the estimate for
    this very transfer.  The gas limit is that estimate times 11 divided
    by 10, rounded down: never below a non-negative estimate and at most
    a tenth above it. *)
Theorem transfer_is_the_configured_one :
  sends_configured_transfer w (trace (snd (SendTx.main w St0))).
Proof.
  run_of (SendTx.main w St0).
  all: unfold sends_configured_transfer; cbn [rpc_calls List.filter is_send snd length].
  all: split; [lia|].
  all: cbn [address privateKey] in *.
  all: each_call
         ltac:(unfold configured_transfer;
               do 10 eexists;
               repeat match goal with |- _ /\ _ => split end;
               first [eassumption | apply gas_margin | reflexivity]).
Qed.

(** X12. When the endpoint refuses the estimate, the transfer script
    stops there: [main] throws an Error whose message is "Gas estimation
    failed: " followed by the message of the refusal (by its class when
    the message is empty), and no transaction is sent. *)
Theorem failed_estimate_stops_transfer :
  stops_on_failed_estimate w (SendTx.main w St0).
Proof.
  run_of (SendTx.main w St0).
  all: unfold stops_on_failed_estimate; cbn [fst snd trace rpc_calls].
  all: cbn [address privateKey] in *.
  all: each_call
         ltac:(match goal with
               | H : rpc_estimateGas _ _ _ _ _ = _ |- _ => rewrite H
               end;
               first [exact I | split; reflexivity]).
Qed.

(** X13. The transfer script waits for a receipt only after its
    transaction was accepted, for the hash the endpoint answered and at
    the same endpoint, and only when WAIT_FOR_RECEIPT, in lower case, is
    one of 1, true, yes; the variable counts as true when it is absent,
    and an empty value turns the wait off. *)
Theorem receipt_awaited_when_asked :
  waits_when_asked w (trace (snd (SendTx.main w St0))).
Proof.
  run_of (SendTx.main w St0).
  all: unfold waits_when_asked, wait_flag; cbn [rpc_calls waits List.filter is_send snd].
  all: cbn [address privateKey] in *.
  all: split; [first [reflexivity | congruence] | split; [first [reflexivity | discriminate] |]].
  all: each_call
         ltac:(intros key Hkey;
               match goal with
               | H : getenv _ "PRIVATE_KEY" = _ |- _ =>
                   rewrite H in Hkey; injection Hkey as <-
               end;
               repeat match goal with
                      | H : rpc_sendTransaction _ _ _ _ = _ |- _ => rewrite H
                      | H : SendTx.includes _ _ = _ |- _ => rewrite H
                      end;
               reflexivity).
Qed.

End TransferRuns.
Section TransferEnd.
Context {lib : Ethers} (w : World).

(** X14. Once the transfer script has handed its transaction to the
    endpoint, the run ends as the endpoint decides: it throws what the
    endpoint threw at the transaction or at the wait, it throws a
    TypeError when the endpoint answers a null receipt, and it returns
    otherwise.  A run can therefore fail after the transaction was
    accepted. *)
Theorem transfer_ends_after_send :
  ends_after_send w (SendTx.main w St0).
Proof.
  run_of (SendTx.main w St0).
  all: unfold ends_after_send, wait_flag; cbn [fst snd trace rpc_calls].
  all: cbn [address privateKey] in *.
  all: repeat first
         [ apply List.Forall_nil
         | apply List.Forall_cons;
           [ first
               [ exact I
               | intros key Hkey;
                 match goal with
                 | H : getenv _ "PRIVATE_KEY" = _ |- _ =>
                     rewrite H in Hkey; injection Hkey as <-
                 end;
                 repeat match goal with
                        | H : rpc_sendTransaction _ _ _ _ = _ |- _ => rewrite H
                        | H : SendTx.includes _ _ = _ |- _ => rewrite H
                        | H : rpc_wait _ _ _ = _ |- _ => rewrite H
                        end;
                 reflexivity ]
           | ] ].
Qed.

End TransferEnd.

(** ** The API script *)

Section ApiRuns.
Context {lib : Ethers} (w : World).

Ltac mode_eq :=
  repeat match goal with
         | H : String.eqb _ _ = true |- _ => apply String.eqb_eq in H
         | H : String.eqb _ _ = false |- _ => apply String.eqb_neq in H
         end.

(** X15. The API script asks its wallet for one signature at most and
    verifies none.  It signs a text only when SIGN_MODE, in lower case,
    is personal (also when the variable is absent or empty), and then
    the text of MESSAGE, or "Hello from Node signer" when that is absent
    or empty; it signs typed data only when the mode is typed, and then
    the domain, types and message of the document parsed from
    TYPED_DATA_JSON. *)
Theorem api_signs_what_mode_says :
  signs_what_mode_says w (trace (snd (SignMessage.main w St0))).
Proof.
  run_of (SignMessage.main w St0).
  all: unfold signs_what_mode_says, sign_mode; cbn [List.filter is_signing verifications length].
  all: mode_eq.
  all: split; [lia | split; [reflexivity|]].
  all: repeat first
         [ apply List.Forall_nil
         | apply List.Forall_cons;
           [ first
               [ exact I
               | split; [assumption | reflexivity]
               | split; [assumption |];
                 do 2 eexists; split; [eassumption |];
                 split; [eassumption |]; repeat split ]
           | ] ].
Qed.

(** X16. With SIGN_MODE neither personal nor typed in lower case, the
    API script signs nothing and sends nothing; once the wallet of a
    valid key is built, what [main] throws is the Error "SIGN_MODE must
    be 'personal' or 'typed'". *)
Theorem unknown_sign_mode_is_refused :
  sign_mode w <> "personal" ->
  sign_mode w <> "typed" ->
  let r := SignMessage.main w St0 in
  fails_unsigned r
  /\ forall key addr,
       In (NewWallet key) (trace (snd r)) ->
       computeAddress key = Ok addr ->
       fst r = Throw (Error "SIGN_MODE must be 'personal' or 'typed'").
Proof.
  unfold sign_mode. intros Hp Ht. cbv zeta.
  run_of (SignMessage.main w St0).
  all: mode_eq; try contradiction.
  all: unfold fails_unsigned; cbn [fst snd trace posts forallb is_signing negb andb].
  all: (split; [split; [eexists; reflexivity | split; reflexivity] |]).
  all: intros key addr Hin Hk; cbn [In] in Hin.
  all: repeat match goal with
              | H : _ \/ _ |- _ => destruct H as [H|H]
              end;
       try discriminate; try contradiction.
  all: first [reflexivity | injection Hin as <-; congruence].
Qed.

Ltac solve_api :=
  unfold api_request; cbn [posts before_post List.filter is_signing];
  repeat first
    [ apply List.Forall_nil
    | apply List.Forall_cons;
      [ do 4 eexists;
        split; [eassumption |];
        split; [eassumption |];
        split; [reflexivity |];
        split; [reflexivity |];
        split; [cbn [signature_of];
                repeat match goal with
                       | H : TypedDataEncoder_hash _ _ _ = _ |- _ => rewrite H
                       end; reflexivity |];
        split; [eassumption |];
        split; [eassumption | reflexivity]
      | ] ].

(** X17. Every request of the API script goes to TARGET_API_URL with the
    document parsed from API_PAYLOAD_JSON as body ({} when the variable
    is absent or empty) and three headers: X-Eth-Address is the address
    of the wallet of PRIVATE_KEY, X-Eth-Signature is the signature that
    wallet gave for the one thing signed before the request, and
    Content-Type is application/json. *)
Theorem api_request_carries_signature :
  let tr := trace (snd (SignMessage.main w St0)) in
  Forall (api_request w tr) (posts tr).
Proof.
  cbv zeta.
  run_of (SignMessage.main w St0).
  all: cbn [address privateKey SignMessage.signature SignMessage.signer] in *.
  all: solve_api.
Qed.

End ApiRuns.
(** ** Sample runs *)

Lemma index_links_with_given_nonce_witness :
  let w := Demo.world (Sample.with_nonce "0") in
  links_with_nonce (lib := Demo.ethers) w true Demo.key2 Demo.addr2
    (JS.toLowerCase Demo.addr1) 1761995511317 (Index.main (lib := Demo.ethers) w St0).
Proof.
  cbv zeta.
  exact (index_links_with_given_nonce (lib := Demo.ethers)
           (Demo.world (Sample.with_nonce "0")) true Demo.key2 Demo.addr1 Demo.addr2 "0" 0
           eq_refl eq_refl eq_refl eq_refl eq_refl eq_refl eq_refl eq_refl eq_refl).
Defined.

Lemma link_staking_links_with_given_nonce_witness :
  let w := Demo.world (Sample.with_nonce "0") in
  links_with_nonce (lib := Demo.ethers) w true Demo.key2 Demo.addr2
    (JS.toLowerCase Demo.addr1) 0 (LinkStaking.main (lib := Demo.ethers) w St0).
Proof.
  cbv zeta.
  exact (link_staking_links_with_given_nonce (lib := Demo.ethers)
           (Demo.world (Sample.with_nonce "0")) Demo.key2 Demo.addr1 Demo.addr2 "0" 0
           eq_refl eq_refl eq_refl eq_refl eq_refl eq_refl eq_refl eq_refl).
Defined.

Lemma index_rejects_malformed_nonce_witness :
  fst (Index.main (lib := Demo.ethers) (Demo.world (Sample.with_nonce "soon")) St0)
  = Throw (SyntaxError "Cannot convert soon to a BigInt").
Proof.
  rewrite (index_rejects_malformed_nonce (lib := Demo.ethers)
             (Demo.world (Sample.with_nonce "soon")) "soon" eq_refl eq_refl eq_refl).
  reflexivity.
Defined.

Lemma link_staking_rejects_malformed_nonce_witness :
  let r := LinkStaking.main (lib := Demo.ethers) (Demo.world (Sample.with_nonce "soon")) St0 in
  fst r = Throw (SyntaxError "Cannot convert soon to a BigInt")
  /\ List.filter is_work (trace (snd r)) = [NewWallet Demo.key2].
Proof.
  cbv zeta.
  exact (proj2 (link_staking_rejects_malformed_nonce (lib := Demo.ethers)
                  (Demo.world (Sample.with_nonce "soon")) "soon" eq_refl eq_refl eq_refl)
           Demo.key2 Demo.addr1 Demo.addr2 eq_refl eq_refl eq_refl eq_refl eq_refl).
Defined.

Lemma finalizer_paths_agree_witness :
  let w := Demo.world (Sample.with_nonce "7") in
  posts (trace (snd (Index.main (lib := Demo.ethers) w St0)))
  = posts (trace (snd (LinkStaking.main (lib := Demo.ethers) w St0))).
Proof.
  cbv zeta.
  exact (proj2 (finalizer_paths_agree (lib := Demo.ethers)
                  (Demo.world (Sample.with_nonce "7")) eq_refl eq_refl)).
Defined.

Lemma guard_is_silent_on_round_trip_witness :
  let wal := {| privateKey := Demo.key1; address := Demo.addr1 |} in
  let a := Index.action_of true false 1761995511317 (JS.toLowerCase Demo.addr2) in
  fst (Index.signLinkAction (lib := Demo.ethers) a wal true St0) = Ok Demo.parts.
Proof.
  cbv zeta.
  rewrite (guard_is_silent_on_round_trip (lib := Demo.ethers)
             (Index.action_of true false 1761995511317 (JS.toLowerCase Demo.addr2))
             Demo.key1 Demo.addr1 true St0 demo_round_trip eq_refl).
  reflexivity.
Defined.

Lemma unknown_sign_mode_is_refused_witness :
  fst (SignMessage.main (lib := Demo.ethers) (Demo.world (Sample.with_mode "EIP712")) St0)
  = Throw (Error "SIGN_MODE must be 'personal' or 'typed'").
Proof.
  refine (proj2 (unknown_sign_mode_is_refused (lib := Demo.ethers)
                   (Demo.world (Sample.with_mode "EIP712")) _ _)
            Demo.key1 Demo.addr1 _ eq_refl).
  - vm_compute. discriminate.
  - vm_compute. discriminate.
  - vm_compute. right. right. left. reflexivity.
Defined.

(** A transfer of 1 ETH in the sample world: the estimate of 21000 gas
    becomes a limit of 23100, and the receipt of the hash answered is
    awaited. *)
Lemma sample_transfer :
  let r := SendTx.main (lib := Demo.ethers) (Demo.world Sample.transfer_env) St0 in
  fst r = Ok tt
  /\ rpc_calls (trace (snd r))
     = [("https://rpc.example.org", GetBlockNumber);
        ("https://rpc.example.org", EstimateGas Demo.addr1 Demo.addr2 (10 ^ 18));
        ("https://rpc.example.org",
         SendTransaction Demo.addr1
           (JS.VObject
              [("chainId", JS.VNumber (JS.Num 11155111));
               ("to", JS.VString Demo.addr2);
               ("value", JS.VBigInt (10 ^ 18));
               ("type", JS.VNumber (JS.Num 2));
               ("maxPriorityFeePerGas", JS.VBigInt 2000000000);
               ("maxFeePerGas", JS.VBigInt 60000000000);
               ("gasLimit", JS.VBigInt 23100)]));
        ("https://rpc.example.org", WaitForReceipt "0xfeed")].
Proof. vm_compute. split; reflexivity. Qed.

(** The same transfer with WAIT_FOR_RECEIPT set and empty: nothing is
    awaited. *)
Lemma sample_transfer_without_wait :
  let w := Demo.world (("WAIT_FOR_RECEIPT", EmptyString) :: Sample.transfer_env) in
  let r := SendTx.main (lib := Demo.ethers) w St0 in
  fst r = Ok tt /\ waits (rpc_calls (trace (snd r))) = [].
Proof. vm_compute. split; reflexivity. Qed.

(** A run of the API script in the default mode: it signs the default
    text and sends the signature. *)
Lemma sample_api_call :
  let r := SignMessage.main (lib := Demo.ethers) (Demo.world Demo.api_env) St0 in
  fst r = Ok tt
  /\ List.filter is_signing (trace (snd r)) = [SignMessage Demo.addr1 "Hello from Node signer"]
  /\ map headers (posts (trace (snd r)))
     = [[("X-Eth-Address", Demo.addr1);
         ("X-Eth-Signature", Demo.sign Demo.key1 Demo.digest);
         ("Content-Type", "application/json")]].
Proof. vm_compute. repeat split. Qed.
